(** * The Figma engine of metasearch: a shallow embedding of
      [src/engines/figma.ts] and the properties of its login, search fan-out,
      result normalisation and thumbnail resolution.

    Asynchronous code is modelled by a small task monad: a task is started at
    a time, in a state, and yields a promise (the time at which it settles and
    its outcome), the requests it issued and the state it left.  The backend
    is an oracle giving, for each request, the reply axios sees and the time
    the round trip takes. *)

From Stdlib Require Import String Ascii List ZArith Lia Bool Arith PeanoNat.
From Stdlib Require Import DecimalString.
Import ListNotations.

Local Open Scope string_scope.
Local Open Scope list_scope.

(** ** Strings as the code uses them *)

Module Js.

(** The double quote character of the HTML attributes. *)
Definition dquote : string := String (ascii_of_nat 34) EmptyString.

(** [`${n}`] for a number holding an integer: its decimal digits, with a
    leading minus sign below zero.  This is Number::toString on the safe
    integers, those of magnitude below 2^53, which a JavaScript number holds
    exactly; a number beyond that range is a double that holds a rounded
    value, of which these are not the digits.  Every statement about the
    digits of a number assumes [safe_integer]. *)
Definition number_to_string (n : Z) : string :=
  NilZero.string_of_int (Z.to_int n).

(** [Number.isSafeInteger(n)] for a number holding an integer. *)
Definition safe_integer (n : Z) : Prop := (Z.abs n < 2 ^ 53)%Z.

(** [`${s}`] for a value that is a string or undefined. *)
Definition template (s : option string) : string :=
  match s with
  | Some v => v
  | None => "undefined"
  end.

(** [s.startsWith(p)], returning what follows the prefix. *)
Fixpoint strip_prefix (p s : string) : option string :=
  match p, s with
  | EmptyString, _ => Some s
  | String a p', String b s' =>
      if Ascii.eqb a b then strip_prefix p' s' else None
  | String _ _, EmptyString => None
  end.

(** [s.split(re)] for a regular expression [re] that matches exactly the
    single characters accepted by [sep]. *)
Fixpoint split (sep : ascii -> bool) (s : string) : list string :=
  match s with
  | EmptyString => [EmptyString]
  | String c r =>
      if sep c then EmptyString :: split sep r
      else match split sep r with
           | [] => [String c EmptyString]
           | h :: tl => String c h :: tl
           end
  end.

(** [parts.join("")]. *)
Definition join_empty (parts : list string) : string :=
  String.concat EmptyString parts.

(** The longest prefix of [s] without a character accepted by [stop]. *)
Fixpoint take_until (stop : ascii -> bool) (s : string) : string :=
  match s with
  | EmptyString => EmptyString
  | String c r => if stop c then EmptyString else String c (take_until stop r)
  end.

(** What follows the first character of [s] accepted by [stop]. *)
Fixpoint after_first (stop : ascii -> bool) (s : string) : string :=
  match s with
  | EmptyString => EmptyString
  | String c r => if stop c then r else after_first stop r
  end.

End Js.

(** ** The session cookie (figma.ts, lines 27 to 32) *)

Module Cookie.

Definition is_eq (c : ascii) : bool := Ascii.eqb c "=".
Definition is_semi (c : ascii) : bool := Ascii.eqb c ";".

(** The character class [[=;]] of [split(/[=;]/)]. *)
Definition eq_or_semi (c : ascii) : bool := is_eq c || is_semi c.

(** [/^figma\.st=[^;]/.test(c)] *)
Definition is_session_cookie (c : string) : bool :=
  match Js.strip_prefix "figma.st=" c with
  | Some (String ch _) => negb (is_semi ch)
  | _ => false
  end.

(** [cookies.find(c => /^figma\.st=[^;]/.test(c))?.split(/[=;]/)[1]],
    [None] standing for undefined. *)
Definition token_of (cookies : list string) : option string :=
  match find is_session_cookie cookies with
  | Some c => nth_error (Js.split eq_or_semi c) 1
  | None => None
  end.

(** [!token] *)
Definition falsy (token : option string) : bool :=
  match token with
  | None => true
  | Some EmptyString => true
  | Some (String _ _) => false
  end.

(** The value of a cookie as the code cuts it: what lies between the first
    [=] and the next [=] or [;], or the end of the string. *)
Definition value_cut (c : string) : string :=
  Js.take_until eq_or_semi (Js.after_first is_eq c).

(** The value of a cookie as the specification words it: what lies between
    the first [=] and the next [;], or the end of the string. *)
Definition value_to_semicolon (c : string) : string :=
  Js.take_until is_semi (Js.after_first is_eq c).

End Cookie.

(** ** Backend entities and the host's result shape *)

Module File.
Record Creator := { handle : string }.
Record t := { creator : Creator; name : string;
              thumbnail_url : string; url : string }.
End File.

(** The [model: { id: string; name: string }] of project and team hits. *)
Module Named.
Record t := { id : string; name : string }.
End Named.

Module FileHit.
Record t := { model : File.t }.
End FileHit.

Module ProjectHit.
Record t := { file_count : Z; model : Named.t; recent_files : list File.t }.
End ProjectHit.

Module TeamHit.
Record t := { member_count : Z; model : Named.t }.
End TeamHit.

Module Result.
Record t := { snippet : option string; title : string; url : string }.
End Result.

(** The three resource kinds, named by their [urlFragment]. *)
Inductive Kind := fig_files | folders | teams.

(** The element type each model declares for [meta.results]. *)
Definition Hit (k : Kind) : Type :=
  match k with
  | fig_files => FileHit.t
  | folders => ProjectHit.t
  | teams => TeamHit.t
  end.

(** ** HTTP as axios presents it *)

(** [axios.create({ baseURL, headers: { Cookie } })] *)
Record AxiosInstance := { baseURL : string; Cookie : string }.

Record SearchParams :=
  { desc : bool; org_id : option string; query : string; sort : string }.

Inductive Request :=
| Post (url : string) (email password username : string)
       (content_type : string)
| Get (client : AxiosInstance) (url : string)
      (params : option SearchParams) (maxRedirects : option nat).

Record Headers :=
  { set_cookie : option (list string); location : option string }.

(** A response.  [results k] is [data.meta.results] read at the element type
    that the model of kind [k] declares for it. *)
Record Response :=
  { status : Z; headers : Headers; results : forall k : Kind, list (Hit k) }.

Inductive Exception :=
| Error (message : string)
| TypeError
| AxiosError (response : option Response).

(** The backend: the response axios ends up with for a request ([None] when no
    response arrives), and the duration of the round trip beyond one tick. *)
Record Backend :=
  { reply : Request -> option Response; latency : Request -> nat }.

(** axios' default [validateStatus]. *)
Definition validateStatus (status : Z) : bool :=
  ((200 <=? status) && (status <? 300))%Z.

(** ** Tasks and promises *)

Definition Time := nat.

Inductive Outcome (A : Type) :=
| Resolved (value : A)
| Rejected (reason : Exception).
Arguments Resolved {A} value.
Arguments Rejected {A} reason.

Record Promise (A : Type) := { settled_at : Time; outcome : Outcome A }.
Arguments settled_at {A} _.
Arguments outcome {A} _.

Record Run (S A : Type) :=
  { promise : Promise A; requests : list Request; state : S }.
Arguments promise {S A} _.
Arguments requests {S A} _.
Arguments state {S A} _.

(** An asynchronous computation: started in a state at a time. *)
Definition Task (S A : Type) := S -> Time -> Run S A.

Section TaskOps.
Context {S : Type}.

Definition ret {A} (a : A) : Task S A := fun s t =>
  {| promise := {| settled_at := t; outcome := Resolved a |};
     requests := []; state := s |}.

Definition throw {A} (e : Exception) : Task S A := fun s t =>
  {| promise := {| settled_at := t; outcome := Rejected e |};
     requests := []; state := s |}.

(** [const a = await m; ... f a] *)
Definition bind {A B} (m : Task S A) (f : A -> Task S B) : Task S B :=
  fun s t =>
    let r := m s t in
    match outcome (promise r) with
    | Resolved a =>
        let r' := f a (state r) (settled_at (promise r)) in
        {| promise := promise r';
           requests := requests r ++ requests r';
           state := state r' |}
    | Rejected e =>
        {| promise := {| settled_at := settled_at (promise r);
                         outcome := Rejected e |};
           requests := requests r; state := state r |}
    end.

(** [try { m } catch (ex) { h ex }] *)
Definition try_catch {A} (m : Task S A) (h : Exception -> Task S A)
  : Task S A :=
  fun s t =>
    let r := m s t in
    match outcome (promise r) with
    | Resolved a => r
    | Rejected e =>
        let r' := h e (state r) (settled_at (promise r)) in
        {| promise := promise r';
           requests := requests r ++ requests r';
           state := state r' |}
    end.

(** Reading the module-level variables. *)
Definition get_state : Task S S := fun s t =>
  {| promise := {| settled_at := t; outcome := Resolved s |};
     requests := []; state := s |}.

(** One round trip: it takes at least one tick, resolves on a status the
    default [validateStatus] accepts and rejects with an axios error
    otherwise. *)
Definition send (net : Backend) (req : Request) : Task S Response :=
  fun s t =>
    {| promise :=
         {| settled_at := t + Datatypes.S (latency net req);
            outcome :=
              match reply net req with
              | None => Rejected (AxiosError None)
              | Some r =>
                  if validateStatus (status r) then Resolved r
                  else Rejected (AxiosError (Some r))
              end |};
       requests := [req]; state := s |}.

(** *** [Promise.all] *)

(** Every task of the list is started at the same time, in list order. *)
Fixpoint start_all {A} (ms : list (Task S A)) (s : S) (t : Time)
  : list (Promise A) * list Request * S :=
  match ms with
  | [] => ([], [], s)
  | m :: ms' =>
      let r := m s t in
      let '(ps, rq, s') := start_all ms' (state r) t in
      (promise r :: ps, requests r ++ rq, s')
  end.

(** The rejection that settles first; of two at the same time, the one of
    the earlier element. *)
Fixpoint first_rejection {A} (ps : list (Promise A))
  : option (Time * Exception) :=
  match ps with
  | [] => None
  | p :: ps' =>
      match outcome p, first_rejection ps' with
      | Rejected e, Some (t', e') =>
          if (t' <? settled_at p)%nat then Some (t', e')
          else Some (settled_at p, e)
      | Rejected e, None => Some (settled_at p, e)
      | Resolved _, later => later
      end
  end.

(** The values of the resolved promises, in the order of the list. *)
Fixpoint values {A} (ps : list (Promise A)) : list A :=
  match ps with
  | [] => []
  | p :: ps' =>
      match outcome p with
      | Resolved a => a :: values ps'
      | Rejected _ => values ps'
      end
  end.

Definition last_settled {A} (t : Time) (ps : list (Promise A)) : Time :=
  fold_right (fun p acc => Nat.max (settled_at p) acc) t ps.

Definition settle_all {A} (t : Time) (ps : list (Promise A))
  : Promise (list A) :=
  match first_rejection ps with
  | Some (t', e) => {| settled_at := t'; outcome := Rejected e |}
  | None => {| settled_at := last_settled t ps;
               outcome := Resolved (values ps) |}
  end.

Definition all {A} (ms : list (Task S A)) : Task S (list A) := fun s t =>
  let '(ps, rq, s') := start_all ms s t in
  {| promise := settle_all t ps; requests := rq; state := s' |}.

End TaskOps.

Declare Scope task_scope.
Delimit Scope task_scope with task.
Notation "x <- m ;; k" := (bind m (fun x => k))
  (at level 100, m at next level, right associativity) : task_scope.

(** ** The rate-limited accessor *)

Module RateLimit.

(** Modelled from the spec: [rateLimit] of [../util], which figma.ts imports
    and which is not among the sources.  Section 4.1 of the specification:
    the first call invokes the factory and caches the in-flight promise; the
    callers that arrive while it is in flight share it; once it has resolved
    the cached value is returned without invoking the factory again; when it
    rejects the cache is not populated and the next call invokes the factory
    again.  What happens when the quota window ends is left open by the
    specification and is not modelled: [hours] is only recorded.
    [invocations] counts the invocations of the factory. *)
Record t (A : Type) :=
  { fn : Task unit A; hours : nat;
    cached : option (Promise A); invocations : nat }.
Arguments fn {A} _.
Arguments hours {A} _.
Arguments cached {A} _.
Arguments invocations {A} _.

(** Modelled from the spec: the accessor [rateLimit(fn, hours)] before its
    first call. *)
Definition rateLimit {A} (fn : Task unit A) (hours : nat) : t A :=
  {| fn := fn; hours := hours; cached := None; invocations := 0 |}.

(** Modelled from the spec: whether a cached promise still serves a caller
    arriving at [now]: it does while it is in flight and after it has
    resolved; a rejection empties the cache at the time it happens. *)
Definition serves {A} (p : Promise A) (now : Time) : bool :=
  match outcome p with
  | Resolved _ => true
  | Rejected _ => (now <? settled_at p)%nat
  end.

(** Modelled from the spec: invoking the factory and caching its promise. *)
Definition invoke {A} (a : t A) (now : Time)
  : Promise A * list Request * t A :=
  let r := fn a tt now in
  (promise r, requests r,
   {| fn := fn a; hours := hours a; cached := Some (promise r);
      invocations := Datatypes.S (invocations a) |}).

(** Modelled from the spec: one call of the accessor at time [now]: the
    promise handed to the caller, the requests the call caused and the
    accessor afterwards. *)
Definition call {A} (a : t A) (now : Time)
  : Promise A * list Request * t A :=
  match cached a with
  | Some p => if serves p now then (p, [], a) else invoke a now
  | None => invoke a now
  end.

(** Modelled from the spec: calls at the given times, one after the other;
    the promises handed out, and the accessor afterwards. *)
Fixpoint calls {A} (a : t A) (times : list Time)
  : list (Promise A) * t A :=
  match times with
  | [] => ([], a)
  | now :: later =>
      let '(p, _, a') := call a now in
      let '(ps, a'') := calls a' later in
      (p :: ps, a'')
  end.

End RateLimit.

(** ** The engine (figma.ts) *)

Record Options := { organization : Z; password : string; user : string }.

(** The module-level variables [getClient] and [orgId]; [None] is undefined. *)
Record Engine :=
  { getClient : option (RateLimit.t AxiosInstance); orgId : option string }.

(** The module as loaded, before [init]. *)
Definition loaded : Engine := {| getClient := None; orgId := None |}.

Section Figma.
Variable net : Backend.

Local Open Scope task_scope.

Definition login_request (user password : string) : Request :=
  Post "https://www.figma.com/api/session/login" user password user
       "application/json".

(** The factory handed to [rateLimit] (lines 19 to 38). *)
Definition login (user password : string) : Task unit AxiosInstance :=
  tokenResponse <- send net (login_request user password) ;;
  match set_cookie (headers tokenResponse) with
  | None => throw TypeError
  | Some cookies =>
      let token := Cookie.token_of cookies in
      if Cookie.falsy token then throw (Error "Figma login failed")
      else ret {| baseURL := "https://www.figma.com";
                  Cookie := ("figma.st=" ++ Js.template token)%string |}
  end.

Definition init (options : Options) (e : Engine) : Engine :=
  {| getClient :=
       Some (RateLimit.rateLimit (login (user options) (password options)) 24);
     orgId := Some (Js.number_to_string (organization options)) |}.

Section Search.
Context {S : Type}.

Definition thumbnail_request (client : AxiosInstance) (f : File.t)
  : Request :=
  Get client (File.thumbnail_url f) None (Some 0).

Definition thumbnail_html (f : File.t) (src : option string) : string :=
  ("<a href=" ++ Js.dquote ++ File.url f ++ Js.dquote
   ++ "><img src=" ++ Js.dquote ++ Js.template src ++ Js.dquote
   ++ "></a>")%string.

(** [getThumbnail] (lines 57 to 73) *)
Definition getThumbnail (client : AxiosInstance) (f : File.t)
  : Task S string :=
  try_catch
    (_ <- send net (thumbnail_request client f) ;;
     throw (Error "Thumbnail URL not found"))
    (fun ex =>
       match ex with
       | AxiosError (Some response) =>
           if (status response =? 302)%Z
           then ret (thumbnail_html f (location (headers response)))
           else throw ex
       | _ => throw ex
       end).
End Search.

(** [getResult] of the three models (lines 77 to 126). *)
Definition getResult (k : Kind)
  : Hit k -> AxiosInstance -> Task Engine Result.t :=
  match k return Hit k -> AxiosInstance -> Task Engine Result.t with
  | fig_files => fun (el : FileHit.t) client =>
      let model := FileHit.model el in
      thumbnail <- getThumbnail client model ;;
      ret {| Result.snippet :=
               Some ("File created by "
                     ++ File.handle (File.creator model)
                     ++ "<br>" ++ thumbnail)%string;
             Result.title := File.name model;
             Result.url := File.url model |}
  | folders => fun (el : ProjectHit.t) client =>
      thumbnails <-
        all (map (fun f => getThumbnail client f)
                 (firstn 3 (ProjectHit.recent_files el))) ;;
      e <- get_state ;;
      ret {| Result.snippet :=
               Some ("Project containing "
                     ++ (if (ProjectHit.file_count el =? 1)%Z then "1 file"
                         else Js.number_to_string (ProjectHit.file_count el)
                              ++ " files")
                     ++ "<br>" ++ Js.join_empty thumbnails)%string;
             Result.title := Named.name (ProjectHit.model el);
             Result.url :=
               ("https://www.figma.com/files/" ++ Js.template (orgId e)
                ++ "/project/" ++ Named.id (ProjectHit.model el))%string |}
  | teams => fun (el : TeamHit.t) _ =>
      e <- get_state ;;
      ret {| Result.snippet :=
               Some ("Team with "
                     ++ (if (TeamHit.member_count el =? 1)%Z then "1 member"
                         else Js.number_to_string (TeamHit.member_count el)
                              ++ " members"))%string;
             Result.title := Named.name (TeamHit.model el);
             Result.url :=
               ("https://www.figma.com/files/" ++ Js.template (orgId e)
                ++ "/team/" ++ Named.id (TeamHit.model el))%string |}
  end.

Definition urlFragment (k : Kind) : string :=
  match k with
  | fig_files => "fig_files"
  | folders => "folders"
  | teams => "teams"
  end.

Definition MODEL_TYPES : list Kind := [fig_files; folders; teams].

(** [await getClient()]: the call goes through the accessor, which is left
    changed at once; the caller resumes when the promise has settled. *)
Definition await_client (accessor : RateLimit.t AxiosInstance)
  : Task Engine AxiosInstance := fun e t =>
  let '(p, rq, accessor') := RateLimit.call accessor t in
  {| promise := {| settled_at := Nat.max t (settled_at p);
                   outcome := outcome p |};
     requests := rq;
     state := {| getClient := Some accessor'; orgId := orgId e |} |}.

Definition search_request (client : AxiosInstance) (k : Kind)
           (org : option string) (q : string) : Request :=
  Get client ("/api/search/" ++ urlFragment k)%string
      (Some {| desc := false; org_id := org; query := q;
               sort := "relevancy" |})
      None.

(** The callback mapped over [MODEL_TYPES] (lines 131 to 152): what it does
    once it holds the client ... *)
Definition query_kind (q : string) (k : Kind) (client : AxiosInstance)
  : Task Engine (list Result.t) :=
  e <- get_state ;;
  response <- send net (search_request client k (orgId e) q) ;;
  all (map (fun el => getResult k el client) (results response k)).

(** ... and the whole of it. *)
Definition sub_query (q : string) (k : Kind) : Task Engine (list Result.t) :=
  e <- get_state ;;
  match getClient e with
  | None => throw (Error "Engine not initialized")
  | Some accessor =>
      client <- await_client accessor ;;
      query_kind q k client
  end.

(** [search] (lines 129 to 154); the last step is [.flat()]. *)
Definition search (q : string) : Task Engine (list Result.t) :=
  per_kind <- all (map (sub_query q) MODEL_TYPES) ;;
  ret (concat per_kind).

End Figma.

(** ** A concrete backend, for running the model *)

Module Demo.

Definition doc : File.t :=
  {| File.creator := {| File.handle := "alice" |}; File.name := "Doc";
     File.thumbnail_url := "https://fig.example/t/2";
     File.url := "https://fig.example/f/2" |}.

Definition broken : File.t :=
  {| File.creator := {| File.handle := "bob" |}; File.name := "Old";
     File.thumbnail_url := "https://fig.example/t/gone";
     File.url := "https://fig.example/f/9" |}.

Definition proj : ProjectHit.t :=
  {| ProjectHit.file_count := 4;
     ProjectHit.model := {| Named.id := "77"; Named.name := "Site" |};
     ProjectHit.recent_files := [doc; doc; doc; broken] |}.

Definition team : TeamHit.t :=
  {| TeamHit.member_count := 1;
     TeamHit.model := {| Named.id := "5"; Named.name := "Design" |} |}.

Definition hits (fs : list FileHit.t) (ps : list ProjectHit.t)
           (ts : list TeamHit.t) (k : Kind) : list (Hit k) :=
  match k with
  | fig_files => fs
  | folders => ps
  | teams => ts
  end.

Definition no_hits : forall k, list (Hit k) := hits [] [] [].

Definition plain (status : Z) (body : forall k, list (Hit k)) : Response :=
  {| status := status;
     headers := {| set_cookie := None; location := None |};
     results := body |}.

Definition with_cookies (cookies : list string) : Response :=
  {| status := 200;
     headers := {| set_cookie := Some cookies; location := None |};
     results := no_hits |}.

Definition redirect (target : string) : Response :=
  {| status := 302;
     headers := {| set_cookie := None; location := Some target |};
     results := no_hits |}.

(** A backend that logs in with the given cookies, answers the three search
    paths with the given responses, redirects every thumbnail but the one
    of [broken], which it serves directly, and takes longest for files. *)
Definition backend (cookies : option (list string))
           (files projects teams_ : Response) : Backend :=
  {| reply := fun req =>
       match req with
       | Post _ _ _ _ _ =>
           Some match cookies with
                | Some cs => with_cookies cs
                | None => plain 200 no_hits
                end
       | Get _ url (Some _) _ =>
           if String.eqb url "/api/search/fig_files" then Some files
           else if String.eqb url "/api/search/folders" then Some projects
           else if String.eqb url "/api/search/teams" then Some teams_
           else None
       | Get _ url None _ =>
           if String.eqb url "https://fig.example/t/gone"
           then Some (plain 200 no_hits)
           else Some (redirect "https://img.example/x.png")
       end;
     latency := fun req =>
       match req with
       | Post _ _ _ _ _ => 7
       | Get _ url (Some _) _ =>
           if String.eqb url "/api/search/fig_files" then 9 else 2
       | Get _ _ None _ => 1
       end |}.

Definition session : list string :=
  ["lang=en; Path=/"; "figma.st=tok123; Path=/; HttpOnly"; "figma.st=zz"].

Definition good : Backend :=
  backend (Some session)
          (plain 200 (hits [{| FileHit.model := doc |}] [] []))
          (plain 200 (hits [] [proj] []))
          (plain 200 (hits [] [] [team])).

(** The same replies, the teams answered first and the files last. *)
Definition retimed : Backend :=
  {| reply := reply good;
     latency := fun req =>
       match req with
       | Post _ _ _ _ _ => 7
       | Get _ url (Some _) _ =>
           if String.eqb url "/api/search/teams" then 0 else 30
       | Get _ _ None _ => 4
       end |}.

Definition options : Options :=
  {| organization := 1234; password := "secret"; user := "me@example.org" |}.

Definition ready (net : Backend) : Engine := init net options loaded.

Definition handle : AxiosInstance :=
  {| baseURL := "https://www.figma.com"; Cookie := "figma.st=tok123" |}.

Definition img : string :=
  ("<a href=" ++ Js.dquote ++ "https://fig.example/f/2" ++ Js.dquote
   ++ "><img src=" ++ Js.dquote ++ "https://img.example/x.png" ++ Js.dquote
   ++ "></a>")%string.

End Demo.

(** ** What a search computes, read off the replies alone

    These definitions follow the wording of the specification (sections 4.3
    and 4.4): they look only at the replies of the backend, never at the time
    a round trip takes, and are compared with the tasks above. *)

Section Denotation.
Variable reply_of : Request -> option Response.

Fixpoint traverse {A B} (f : A -> option B) (l : list A)
  : option (list B) :=
  match l with
  | [] => Some []
  | x :: l' =>
      match f x, traverse f l' with
      | Some y, Some ys => Some (y :: ys)
      | _, _ => None
      end
  end.

(** The reply to a request, when axios resolves with it. *)
Definition accepted (req : Request) : option Response :=
  match reply_of req with
  | Some r => if validateStatus (status r) then Some r else None
  | None => None
  end.

(** The fragment of a thumbnail whose probe is answered by a 302. *)
Definition resolve (client : AxiosInstance) (f : File.t) : option string :=
  match reply_of (thumbnail_request client f) with
  | Some r =>
      if (status r =? 302)%Z
      then Some (thumbnail_html f (location (headers r)))
      else None
  | None => None
  end.

(** The error a probe ends in when it is not answered by a 302. *)
Definition probe_error (client : AxiosInstance) (f : File.t) : Exception :=
  match reply_of (thumbnail_request client f) with
  | Some r =>
      if validateStatus (status r) then Error "Thumbnail URL not found"
      else AxiosError (Some r)
  | None => AxiosError None
  end.

(** The files whose thumbnails a hit needs. *)
Definition probed (k : Kind) : Hit k -> list File.t :=
  match k return Hit k -> list File.t with
  | fig_files => fun el => [FileHit.model el]
  | folders => fun el => firstn 3 (ProjectHit.recent_files el)
  | teams => fun _ => []
  end.

Definition count_text (n : Z) (one many : string) : string :=
  if (n =? 1)%Z then one else (Js.number_to_string n ++ many)%string.

(** The normalized result of a hit, given the fragments of its files. *)
Definition render (org : option string) (k : Kind)
  : Hit k -> list string -> Result.t :=
  match k return Hit k -> list string -> Result.t with
  | fig_files => fun el thumbnails =>
      {| Result.snippet :=
           Some ("File created by "
                 ++ File.handle (File.creator (FileHit.model el))
                 ++ "<br>" ++ Js.join_empty thumbnails)%string;
         Result.title := File.name (FileHit.model el);
         Result.url := File.url (FileHit.model el) |}
  | folders => fun el thumbnails =>
      {| Result.snippet :=
           Some ("Project containing "
                 ++ count_text (ProjectHit.file_count el) "1 file" " files"
                 ++ "<br>" ++ Js.join_empty thumbnails)%string;
         Result.title := Named.name (ProjectHit.model el);
         Result.url :=
           ("https://www.figma.com/files/" ++ Js.template org
            ++ "/project/" ++ Named.id (ProjectHit.model el))%string |}
  | teams => fun el _ =>
      {| Result.snippet :=
           Some ("Team with "
                 ++ count_text (TeamHit.member_count el)
                               "1 member" " members")%string;
         Result.title := Named.name (TeamHit.model el);
         Result.url :=
           ("https://www.figma.com/files/" ++ Js.template org
            ++ "/team/" ++ Named.id (TeamHit.model el))%string |}
  end.

Definition normalize (org : option string) (client : AxiosInstance)
           (k : Kind) (el : Hit k) : option Result.t :=
  option_map (render org k el) (traverse (resolve client) (probed k el)).

(** The normalized results of one kind, in the order of the backend. *)
Definition kind_results (org : option string) (client : AxiosInstance)
           (q : string) (k : Kind) : option (list Result.t) :=
  match accepted (search_request client k org q) with
  | Some r => traverse (normalize org client k) (results r k)
  | None => None
  end.

(** The outcome of the login factory. *)
Definition login_outcome (user password : string) : Outcome AxiosInstance :=
  match reply_of (login_request user password) with
  | None => Rejected (AxiosError None)
  | Some r =>
      if validateStatus (status r) then
        match set_cookie (headers r) with
        | None => Rejected TypeError
        | Some cookies =>
            match Cookie.token_of cookies with
            | Some (String c token) =>
                Resolved {| baseURL := "https://www.figma.com";
                            Cookie := ("figma.st=" ++ String c token)%string |}
            | _ => Rejected (Error "Figma login failed")
            end
        end
      else Rejected (AxiosError (Some r))
  end.

(** The requests one sub-query issues once it holds the client. *)
Definition kind_requests (org : option string) (client : AxiosInstance)
           (q : string) (k : Kind) : list Request :=
  search_request client k org q
  :: match accepted (search_request client k org q) with
     | Some r =>
         flat_map (fun el => map (thumbnail_request client) (probed k el))
                  (results r k)
     | None => []
     end.

(** A request is a thumbnail probe when it does not follow redirects. *)
Definition is_probe (req : Request) : bool :=
  match req with
  | Get _ _ _ (Some 0) => true
  | _ => false
  end.

(** A request that did not go well: a probe not answered by a 302, any
    other request that axios rejects. *)
Definition failed (req : Request) : bool :=
  if is_probe req
  then match reply_of req with
       | Some r => negb (status r =? 302)%Z
       | None => true
       end
  else match accepted req with
       | Some _ => false
       | None => true
       end.

(** The query parameters of a request. *)
Definition params_of (req : Request) : option SearchParams :=
  match req with
  | Get _ _ ps _ => ps
  | Post _ _ _ _ _ => None
  end.

End Denotation.

(** The accessor of an engine, once set, wraps the login factory. *)
Definition wraps_login (net : Backend) (e : Engine) : Prop :=
  forall a, getClient e = Some a ->
            exists u p, forall s t, RateLimit.fn a s t = login net u p s t.

(** The promise the accessor hands to a caller at time [t]. *)
Definition handed (a : RateLimit.t AxiosInstance) (t : Time)
  : Promise AxiosInstance :=
  fst (fst (RateLimit.call a t)).

(** The state a sub-query leaves: the accessor after the call, the
    organization untouched. *)
Definition after_call (a' : RateLimit.t AxiosInstance) (e : Engine)
  : Engine :=
  {| getClient := Some a'; orgId := orgId e |}.

Definition is_rejected {A} (o : Outcome A) : Prop :=
  exists e, o = Rejected e.

Definition resolved_to {A} (p : Promise A) (v : A) : Prop :=
  outcome p = Resolved v.

(** A task that leaves the state as it found it. *)
Definition quiet {S A} (m : Task S A) : Prop :=
  forall s t, state (m s t) = s.

(** The outcome of [f x] is given by [g], whatever the time: it resolves to
    [y] when [g] gives [Some y] and rejects when [g] gives [None]. *)
Definition computes {S A B} (f : A -> Task S B) (g : S -> A -> option B)
  : Prop :=
  forall x s t,
    match g s x with
    | Some y => outcome (promise (f x s t)) = Resolved y
    | None => is_rejected (outcome (promise (f x s t)))
    end.

(** A factory whose promise never settles at the very time it is started. *)
Definition lasting {A} (fn : Task unit A) : Prop :=
  forall t, t < settled_at (promise (fn tt t)).

(** ** Vocabulary for further properties of the engine *)

(** The name a hit carries: [model.name] in each of the three shapes. *)
Definition hit_name (k : Kind) : Hit k -> string :=
  match k return Hit k -> string with
  | fig_files => fun el => File.name (FileHit.model el)
  | folders => fun el => Named.name (ProjectHit.model el)
  | teams => fun el => Named.name (TeamHit.model el)
  end.

(** Every character of [s] is accepted by [p]. *)
Fixpoint every_char (p : ascii -> bool) (s : string) : bool :=
  match s with
  | EmptyString => true
  | String c r => p c && every_char p r
  end.

(** A request that carries query parameters. *)
Definition has_params (req : Request) : bool :=
  match params_of req with
  | Some _ => true
  | None => false
  end.

(** The errors the engine throws itself once it is initialized, and those it
    lets through from axios and from the runtime. *)
Definition engine_error (ex : Exception) : Prop :=
  ex = Error "Figma login failed"
  \/ ex = Error "Thumbnail URL not found"
  \/ ex = TypeError
  \/ exists response, ex = AxiosError response.

(** Every rejection of the task, in the given state, is accepted by [K]. *)
Definition rejects_only {S A} (K : Exception -> Prop) (m : Task S A) : Prop :=
  forall s t ex, outcome (promise (m s t)) = Rejected ex -> K ex.

(** An accessor whose cached promise, if rejected, was rejected with an
    error of the engine. *)
Definition login_failures_only (a : RateLimit.t AxiosInstance) : Prop :=
  forall p ex,
    RateLimit.cached a = Some p -> outcome p = Rejected ex -> engine_error ex.

(** * Properties *)

(** ** [Promise.all] *)

Section AllFacts.
Context {A : Type}.
Implicit Types (ps : list (Promise A)) (vs : list A).

Lemma first_rejection_resolved ps vs :
  Forall2 resolved_to ps vs -> first_rejection ps = None /\ values ps = vs.
Proof.
  induction 1 as [|p v ps vs Hp _ [IHr IHv]]; simpl; [tauto|].
  rewrite Hp, IHr, IHv. tauto.
Qed.

Lemma first_rejection_exists ps :
  Exists (fun p => is_rejected (outcome p)) ps ->
  exists te, first_rejection ps = Some te.
Proof.
  induction 1 as [p ps [e He]|p ps _ [te IH]]; simpl.
  - rewrite He. destruct (first_rejection ps) as [[t' e']|]; eauto.
    destruct (t' <? settled_at p)%nat; eauto.
  - rewrite IH. destruct (outcome p); eauto.
    destruct te as [t' e']. destruct (t' <? settled_at p)%nat; eauto.
Qed.

Lemma first_rejection_none ps :
  first_rejection ps = None -> Forall2 resolved_to ps (values ps).
Proof.
  induction ps as [|p ps IH]; simpl; intros H; [constructor|].
  destruct (outcome p) as [v|e] eqn:Hp.
  - constructor; auto.
  - destruct (first_rejection ps) as [[t' e']|]; [|discriminate].
    destruct (t' <? settled_at p)%nat; discriminate.
Qed.

Lemma settle_all_resolved t ps vs :
  Forall2 resolved_to ps vs -> outcome (settle_all t ps) = Resolved vs.
Proof.
  intros H. apply first_rejection_resolved in H as [Hr Hv].
  unfold settle_all. rewrite Hr. simpl. now rewrite Hv.
Qed.

Lemma settle_all_rejected t ps :
  Exists (fun p => is_rejected (outcome p)) ps ->
  is_rejected (outcome (settle_all t ps)).
Proof.
  intros H. apply first_rejection_exists in H as [[t' e] H].
  unfold settle_all. rewrite H. simpl. now exists e.
Qed.

Lemma settle_all_inv t ps vs :
  outcome (settle_all t ps) = Resolved vs -> Forall2 resolved_to ps vs.
Proof.
  unfold settle_all.
  destruct (first_rejection ps) as [[t' e]|] eqn:H; simpl; [discriminate|].
  intros [= <-]. now apply first_rejection_none.
Qed.

(** The order of the values is the order of the list, whenever the
    promises settle. *)
Lemma settle_all_times t t' ps ps' :
  map outcome ps = map outcome ps' ->
  forall vs, outcome (settle_all t ps) = Resolved vs ->
             outcome (settle_all t' ps') = Resolved vs.
Proof.
  intros Ho vs H. apply settle_all_inv in H. apply settle_all_resolved.
  revert ps' Ho. induction H as [|p v ps vs Hp _ IH]; intros [|p' ps'] Ho;
    simpl in Ho; try discriminate; constructor.
  - injection Ho as Ho _. unfold resolved_to in *. congruence.
  - injection Ho as _ Ho. auto.
Qed.

End AllFacts.

Section QuietFacts.
Context {S : Type}.

Lemma quiet_ret {A} (a : A) : quiet (@ret S A a).
Proof. now intros s t. Qed.

Lemma quiet_throw {A} e : quiet (@throw S A e).
Proof. now intros s t. Qed.

Lemma quiet_get_state : quiet (@get_state S).
Proof. now intros s t. Qed.

Lemma quiet_send net req : quiet (@send S net req).
Proof. now intros s t. Qed.

Lemma quiet_bind {A B} (m : Task S A) (f : A -> Task S B) :
  quiet m -> (forall a, quiet (f a)) -> quiet (bind m f).
Proof.
  intros Hm Hf s t. unfold bind.
  destruct (outcome (promise (m s t))); simpl; [rewrite Hf|]; apply Hm.
Qed.

Lemma quiet_try_catch {A} (m : Task S A) h :
  quiet m -> (forall e, quiet (h e)) -> quiet (try_catch m h).
Proof.
  intros Hm Hh s t. unfold try_catch.
  destruct (outcome (promise (m s t))); simpl; [|rewrite Hh]; apply Hm.
Qed.

Lemma start_all_quiet {A} (ms : list (Task S A)) s t :
  Forall quiet ms ->
  start_all ms s t
  = (map (fun m => promise (m s t)) ms,
     flat_map (fun m => requests (m s t)) ms, s).
Proof.
  induction 1 as [|m ms Hm _ IH]; simpl; [reflexivity|].
  rewrite Hm, IH. reflexivity.
Qed.

Lemma all_quiet {A} (ms : list (Task S A)) s t :
  Forall quiet ms ->
  all ms s t
  = {| promise := settle_all t (map (fun m => promise (m s t)) ms);
       requests := flat_map (fun m => requests (m s t)) ms;
       state := s |}.
Proof. intros H. unfold all. now rewrite start_all_quiet. Qed.

Lemma quiet_all {A} (ms : list (Task S A)) :
  Forall quiet ms -> quiet (all ms).
Proof. intros H s t. now rewrite all_quiet. Qed.

Lemma quiet_getThumbnail net client f : quiet (@getThumbnail net S client f).
Proof.
  apply quiet_try_catch.
  - apply quiet_bind; [apply quiet_send|intros; apply quiet_throw].
  - intros [m| |[r|]]; try apply quiet_throw.
    destruct (status r =? 302)%Z; [apply quiet_ret|apply quiet_throw].
Qed.

End QuietFacts.

(** ** The thumbnail resolver and the three normalizers *)

Section EngineFacts.
Variable net : Backend.

Local Arguments firstn : simpl never.

Lemma validateStatus_not_302 z :
  validateStatus z = true -> (z =? 302)%Z = false.
Proof. unfold validateStatus. intros H. lia. Qed.

Lemma getThumbnail_run {S} client f (s : S) t :
  getThumbnail net client f s t
  = {| promise :=
         {| settled_at :=
              t + Datatypes.S (latency net (thumbnail_request client f));
            outcome :=
              match resolve (reply net) client f with
              | Some html => Resolved html
              | None => Rejected (probe_error (reply net) client f)
              end |};
       requests := [thumbnail_request client f];
       state := s |}.
Proof.
  unfold getThumbnail, try_catch, bind, send, throw, ret, resolve,
    probe_error.
  simpl. destruct (reply net (thumbnail_request client f)) as [r|];
    simpl; [|reflexivity].
  destruct (validateStatus (status r)) eqn:Hv; simpl.
  - now rewrite (validateStatus_not_302 _ Hv).
  - now destruct (status r =? 302)%Z.
Qed.

Lemma getThumbnail_computes {S} client :
  computes (@getThumbnail net S client) (fun _ => resolve (reply net) client).
Proof.
  intros f s t. rewrite getThumbnail_run. simpl.
  destruct (resolve (reply net) client f); [reflexivity|].
  now eexists.
Qed.

(** [Promise.all] over the elements of a list, with tasks that leave the
    state alone. *)
Lemma all_map_computes {S A B} (f : A -> Task S B) g :
  (forall x, quiet (f x)) -> computes f g -> computes (fun l => all (map f l))
                                               (fun s => traverse (g s)).
Proof.
  intros Hq Hc l s t. rewrite all_quiet
    by (apply Forall_forall; intros m [x [<- _]]%in_map_iff; apply Hq).
  simpl. rewrite map_map.
  destruct (traverse (g s) l) as [ys|] eqn:Ht.
  - apply settle_all_resolved. revert ys Ht.
    induction l as [|x l IH]; simpl; intros ys Ht.
    + injection Ht as <-. constructor.
    + specialize (Hc x s t). destruct (g s x) as [y|]; [|discriminate].
      destruct (traverse (g s) l) as [ys'|]; [|discriminate].
      injection Ht as <-. constructor; auto.
  - apply settle_all_rejected. induction l as [|x l IH]; simpl in *;
      [discriminate|].
    specialize (Hc x s t). destruct (g s x) as [y|].
    + destruct (traverse (g s) l); [discriminate|]. right. auto.
    + left. exact Hc.
Qed.

Lemma all_map_requests {S A B} (f : A -> Task S B) l s t :
  (forall x, quiet (f x)) ->
  requests (all (map f l) s t) = flat_map (fun x => requests (f x s t)) l.
Proof.
  intros Hq. rewrite all_quiet
    by (apply Forall_forall; intros m [x [<- _]]%in_map_iff; apply Hq).
  simpl. induction l as [|x l IH]; simpl; [reflexivity|]. now rewrite IH.
Qed.

Lemma quiet_all_map {S A B} (f : A -> Task S B) l :
  (forall x, quiet (f x)) -> quiet (all (map f l)).
Proof.
  intros Hq. apply quiet_all, Forall_forall.
  intros m [x [<- _]]%in_map_iff. apply Hq.
Qed.

Lemma quiet_getResult k el client : quiet (getResult net k el client).
Proof.
  destruct k; simpl.
  - apply quiet_bind; [apply quiet_getThumbnail|intros; apply quiet_ret].
  - apply quiet_bind.
    + apply quiet_all_map. intros; apply quiet_getThumbnail.
    + intros. apply quiet_bind; [apply quiet_get_state|].
      intros; apply quiet_ret.
  - apply quiet_bind; [apply quiet_get_state|intros; apply quiet_ret].
Qed.

Lemma getResult_computes k client :
  computes (fun el => getResult net k el client)
           (fun e => normalize (reply net) (orgId e) client k).
Proof.
  intros el e t. unfold normalize. destruct k; simpl.
  - unfold bind. rewrite getThumbnail_run. simpl.
    destruct (resolve (reply net) client (FileHit.model el)); simpl;
      [reflexivity|now eexists].
  - pose proof (all_map_computes (S := Engine)
                  (fun f => getThumbnail net client f) _
                  (fun f => quiet_getThumbnail net client f)
                  (getThumbnail_computes client)
                  (firstn 3 (ProjectHit.recent_files el)) e t) as H.
    cbv beta in H.
    destruct (traverse _ _) as [hs|]; unfold bind, get_state, ret.
    + rewrite H. simpl.
      rewrite (quiet_all_map _ _ (fun f => quiet_getThumbnail net client f)).
      reflexivity.
    + destruct H as [ex ->]. simpl. now eexists.
  - reflexivity.
Qed.

Lemma getResult_requests k el client e t :
  requests (getResult net k el client e t)
  = map (thumbnail_request client) (probed k el).
Proof.
  destruct k; simpl.
  - unfold bind. rewrite getThumbnail_run. simpl.
    now destruct (resolve (reply net) client (FileHit.model el)).
  - unfold bind at 1.
    rewrite (all_map_requests _ _ _ _
               (fun f => quiet_getThumbnail net client f)).
    assert (Hr : flat_map
                   (fun x => requests (getThumbnail net client x e t))
                   (firstn 3 (ProjectHit.recent_files el))
                 = map (thumbnail_request client)
                       (firstn 3 (ProjectHit.recent_files el))).
    { induction (firstn 3 (ProjectHit.recent_files el)) as [|f l IH];
        simpl; [reflexivity|].
      rewrite getThumbnail_run at 1. simpl. now rewrite IH. }
    rewrite Hr.
    destruct (outcome _); simpl; [now rewrite app_nil_r|reflexivity].
  - reflexivity.
Qed.

End EngineFacts.

(** ** The login factory and the accessor *)

Section SessionFacts.
Variable net : Backend.

Lemma login_run user password s t :
  login net user password s t
  = {| promise :=
         {| settled_at :=
              t + Datatypes.S (latency net (login_request user password));
            outcome := login_outcome (reply net) user password |};
       requests := [login_request user password];
       state := s |}.
Proof.
  unfold login, bind, send, login_outcome. simpl.
  destruct (reply net (login_request user password)) as [r|]; simpl;
    [|reflexivity].
  destruct (validateStatus (status r)); simpl; [|reflexivity].
  destruct (set_cookie (headers r)) as [cookies|]; simpl; [|reflexivity].
  destruct (Cookie.token_of cookies) as [[|c token]|]; reflexivity.
Qed.

Lemma lasting_login user password : lasting (login net user password).
Proof. intros t. rewrite login_run. simpl. lia. Qed.

End SessionFacts.

Section AccessorFacts.
Context {A : Type}.
Implicit Types (a : RateLimit.t A) (p : Promise A).

Lemma serves_in_flight p now :
  now < settled_at p -> RateLimit.serves p now = true.
Proof.
  intros H. unfold RateLimit.serves. destruct (outcome p); [reflexivity|].
  now apply Nat.ltb_lt.
Qed.

Lemma call_cases a now :
  (exists p, RateLimit.cached a = Some p /\ RateLimit.serves p now = true
             /\ RateLimit.call a now = (p, [], a))
  \/ RateLimit.call a now = RateLimit.invoke a now.
Proof.
  unfold RateLimit.call. destruct (RateLimit.cached a) as [p|]; [|now right].
  destruct (RateLimit.serves p now) eqn:Hs; [left|now right].
  exists p. auto.
Qed.

Lemma call_fn a now :
  RateLimit.fn (snd (RateLimit.call a now)) = RateLimit.fn a.
Proof. destruct (call_cases a now) as [(p & _ & _ & ->)| ->]; reflexivity. Qed.

(** A second caller arriving at the same time shares the promise of the
    first, and causes no request. *)
Lemma call_again a now p rq a' :
  lasting (RateLimit.fn a) ->
  RateLimit.call a now = (p, rq, a') ->
  RateLimit.call a' now = (p, [], a').
Proof.
  intros Hl. destruct (call_cases a now) as [(p0 & Hc & Hs & ->)| ->].
  - intros [= <- <- <-]. unfold RateLimit.call. now rewrite Hc, Hs.
  - unfold RateLimit.invoke. intros [= <- <- <-].
    unfold RateLimit.call. simpl. now rewrite serves_in_flight by apply Hl.
Qed.

Lemma call_requests a now :
  snd (fst (RateLimit.call a now)) = []
  \/ (snd (fst (RateLimit.call a now)) = requests (RateLimit.fn a tt now)
      /\ fst (fst (RateLimit.call a now)) = promise (RateLimit.fn a tt now)).
Proof.
  destruct (call_cases a now) as [(p & _ & _ & ->)| ->]; [now left|right].
  split; reflexivity.
Qed.

End AccessorFacts.

(** ** One sub-query *)

Section SubQueryFacts.
Variable net : Backend.

Lemma quiet_query_kind q k client : quiet (query_kind net q k client).
Proof.
  apply quiet_bind; [apply quiet_get_state|]. intros e.
  apply quiet_bind; [apply quiet_send|]. intros r.
  apply quiet_all_map. intros el. apply quiet_getResult.
Qed.

Lemma query_kind_requests q k client e t :
  requests (query_kind net q k client e t)
  = kind_requests (reply net) (orgId e) client q k.
Proof.
  unfold query_kind, kind_requests, accepted, bind, get_state, send.
  cbn [promise outcome requests state settled_at app].
  destruct (reply net _) as [r|]; [|reflexivity].
  destruct (validateStatus (status r)); [|reflexivity].
  cbn [promise outcome requests state settled_at app]. f_equal.
  rewrite all_map_requests by (intros; apply quiet_getResult).
  apply flat_map_ext. intros el. apply getResult_requests.
Qed.

Lemma query_kind_computes q client :
  computes (fun k => query_kind net q k client)
           (fun e => kind_results (reply net) (orgId e) client q).
Proof.
  intros k e t.
  unfold query_kind, kind_results, accepted, bind, get_state, send.
  cbn [promise outcome requests state settled_at app].
  destruct (reply net _) as [r|]; [|now eexists].
  destruct (validateStatus (status r)); [|now eexists].
  cbn [promise outcome requests state settled_at app].
  pose proof (all_map_computes (fun el => getResult net k el client) _
                (fun el => quiet_getResult net k el client)
                (getResult_computes net k client) (results r k) e
                (t + Datatypes.S
                       (latency net (search_request client k (orgId e) q))))
    as H.
  cbv beta in H.
  destruct (traverse _ _) as [rs|]; [exact H|].
  destruct H as [ex H]. exists ex. exact H.
Qed.

Lemma sub_query_uninit q k e t :
  getClient e = None ->
  sub_query net q k e t
  = {| promise := {| settled_at := t;
                     outcome := Rejected (Error "Engine not initialized") |};
       requests := []; state := e |}.
Proof.
  intros H. unfold sub_query, bind, get_state.
  cbn [promise outcome requests state settled_at app]. now rewrite H.
Qed.

Lemma sub_query_run q k e t a p rq a' :
  getClient e = Some a ->
  RateLimit.call a t = (p, rq, a') ->
  sub_query net q k e t
  = match outcome p with
    | Resolved client =>
        let r := query_kind net q k client (after_call a' e)
                            (Nat.max t (settled_at p)) in
        {| promise := promise r; requests := rq ++ requests r;
           state := after_call a' e |}
    | Rejected ex =>
        {| promise := {| settled_at := Nat.max t (settled_at p);
                         outcome := Rejected ex |};
           requests := rq; state := after_call a' e |}
    end.
Proof.
  intros Ha Hc. unfold sub_query, bind at 1, get_state.
  cbn [promise outcome requests state settled_at app]. rewrite Ha.
  unfold bind, await_client. rewrite Hc.
  cbn [promise outcome requests state settled_at app].
  destruct (outcome p) as [client|ex]; [|reflexivity].
  cbn zeta. now rewrite quiet_query_kind.
Qed.

End SubQueryFacts.

(** ** The search fan-out *)

Section SearchFacts.
Variable net : Backend.

Lemma search_rejected_login q e t a p rq a' ex :
  getClient e = Some a ->
  lasting (RateLimit.fn a) ->
  RateLimit.call a t = (p, rq, a') ->
  outcome p = Rejected ex ->
  search net q e t
  = {| promise := {| settled_at := Nat.max t (settled_at p);
                     outcome := Rejected ex |};
       requests := rq; state := after_call a' e |}.
Proof.
  intros Ha Hl Hc Hp.
  pose proof (call_again _ _ _ _ _ Hl Hc) as Hc'.
  assert (Ha' : getClient (after_call a' e) = Some a') by reflexivity.
  unfold search, bind, all, MODEL_TYPES. cbn [map start_all].
  rewrite (sub_query_run net q fig_files _ _ _ _ _ _ Ha Hc), Hp.
  cbn [state].
  rewrite (sub_query_run net q folders _ _ _ _ _ _ Ha' Hc'), Hp.
  cbn [state].
  change (after_call a' (after_call a' e)) with (after_call a' e).
  rewrite (sub_query_run net q teams _ _ _ _ _ _ Ha' Hc'), Hp.
  unfold settle_all.
  cbn [state promise requests first_rejection outcome settled_at app].
  repeat (rewrite Nat.ltb_irrefl;
          cbn [state promise requests first_rejection outcome settled_at app]).
  now rewrite app_nil_r.
Qed.

Lemma bind_ret_run {S A B} (m : Task S A) (g : A -> B) s t :
  requests (bind m (fun v => ret (g v)) s t) = requests (m s t)
  /\ state (bind m (fun v => ret (g v)) s t) = state (m s t)
  /\ outcome (promise (bind m (fun v => ret (g v)) s t))
     = match outcome (promise (m s t)) with
       | Resolved v => Resolved (g v)
       | Rejected ex => Rejected ex
       end.
Proof.
  unfold bind. destruct (outcome (promise (m s t)));
    cbn [requests state promise outcome ret]; now rewrite ?app_nil_r.
Qed.

Lemma all_sub_queries q e t a p rq a' client :
  getClient e = Some a ->
  lasting (RateLimit.fn a) ->
  RateLimit.call a t = (p, rq, a') ->
  outcome p = Resolved client ->
  let sent := kind_requests (reply net) (orgId e) client q in
  let sub k := promise (query_kind net q k client (after_call a' e)
                                   (Nat.max t (settled_at p))) in
  all (map (sub_query net q) MODEL_TYPES) e t
  = {| promise := settle_all t [sub fig_files; sub folders; sub teams];
       requests := rq ++ sent fig_files ++ sent folders ++ sent teams;
       state := after_call a' e |}.
Proof.
  intros Ha Hl Hc Hp sent sub.
  pose proof (call_again _ _ _ _ _ Hl Hc) as Hc'.
  assert (Ha' : getClient (after_call a' e) = Some a') by reflexivity.
  pose proof (fun k => query_kind_requests net q k client (after_call a' e)
                         (Nat.max t (settled_at p))) as Hr.
  change (orgId (after_call a' e)) with (orgId e) in Hr. fold sent in Hr.
  unfold all, MODEL_TYPES. cbn [map start_all].
  rewrite (sub_query_run net q fig_files _ _ _ _ _ _ Ha Hc), Hp.
  cbn [state]. cbn zeta.
  rewrite (sub_query_run net q folders _ _ _ _ _ _ Ha' Hc'), Hp.
  cbn [state]. cbn zeta.
  change (after_call a' (after_call a' e)) with (after_call a' e).
  rewrite (sub_query_run net q teams _ _ _ _ _ _ Ha' Hc'), Hp.
  cbn [state promise requests]. cbn zeta.
  change (after_call a' (after_call a' e)) with (after_call a' e).
  rewrite !Hr. cbn [app]. now rewrite app_nil_r, <- app_assoc.
Qed.

Lemma search_run q e t a p rq a' client :
  getClient e = Some a ->
  lasting (RateLimit.fn a) ->
  RateLimit.call a t = (p, rq, a') ->
  outcome p = Resolved client ->
  let found := kind_results (reply net) (orgId e) client q in
  let sent := kind_requests (reply net) (orgId e) client q in
  requests (search net q e t)
  = rq ++ sent fig_files ++ sent folders ++ sent teams
  /\ state (search net q e t) = after_call a' e
  /\ match found fig_files, found folders, found teams with
     | Some fs, Some ps, Some ts =>
         outcome (promise (search net q e t)) = Resolved (fs ++ ps ++ ts)
     | _, _, _ => is_rejected (outcome (promise (search net q e t)))
     end.
Proof.
  intros Ha Hl Hc Hp found sent. unfold search.
  destruct (bind_ret_run (all (map (sub_query net q) MODEL_TYPES))
              (@concat Result.t) e t) as (-> & -> & ->).
  rewrite (all_sub_queries q e t a p rq a' client Ha Hl Hc Hp).
  cbn [requests state promise]. do 2 (split; [reflexivity|]).
  pose proof (fun k => query_kind_computes net q client k (after_call a' e)
                         (Nat.max t (settled_at p))) as Hk.
  cbv beta in Hk. change (orgId (after_call a' e)) with (orgId e) in Hk.
  fold found in Hk.
  pose proof (Hk fig_files) as H1. pose proof (Hk folders) as H2.
  pose proof (Hk teams) as H3.
  assert (Hrej : forall ps : list (Promise (list Result.t)),
             is_rejected (outcome (settle_all t ps)) ->
             is_rejected
               match outcome (settle_all t ps) with
               | Resolved v => Resolved (concat v)
               | Rejected ex => Rejected ex
               end).
  { intros ps [ex ->]. now exists ex. }
  destruct (found fig_files) as [fs|];
    [|now apply Hrej, settle_all_rejected; left].
  destruct (found folders) as [ps|];
    [|now apply Hrej, settle_all_rejected; right; left].
  destruct (found teams) as [ts|];
    [|now apply Hrej, settle_all_rejected; right; right; left].
  rewrite (settle_all_resolved _ _ [fs; ps; ts])
    by (repeat constructor; assumption).
  cbn [concat]. now rewrite app_nil_r.
Qed.
End SearchFacts.

(** ** The session token *)

Section CookieFacts.

Lemma strip_prefix_app p s r :
  Js.strip_prefix p s = Some r -> s = (p ++ r)%string.
Proof.
  revert s. induction p as [|a p IH]; intros [|b s]; simpl;
    try discriminate; try (now intros [= ->]).
  destruct (Ascii.eqb_spec a b) as [->|]; [|discriminate].
  intros H. now rewrite (IH _ H).
Qed.

Lemma split_head sep s :
  nth_error (Js.split sep s) 0 = Some (Js.take_until sep s).
Proof.
  induction s as [|c s IH]; simpl; [reflexivity|].
  destruct (sep c); [reflexivity|].
  destruct (Js.split sep s) as [|h tl]; [discriminate|].
  simpl in *. now injection IH as ->.
Qed.

Lemma split_cons sep c s :
  sep c = false ->
  Js.split sep (String c s)
  = String c (hd EmptyString (Js.split sep s)) :: tl (Js.split sep s).
Proof.
  intros H. simpl. rewrite H.
  pose proof (split_head sep s) as Hh.
  destruct (Js.split sep s); [discriminate|reflexivity].
Qed.

(** What the code takes from a session cookie is its value up to the next
    [=] or [;]. *)
Lemma session_cookie_token c :
  Cookie.is_session_cookie c = true ->
  nth_error (Js.split Cookie.eq_or_semi c) 1 = Some (Cookie.value_cut c).
Proof.
  unfold Cookie.is_session_cookie.
  destruct (Js.strip_prefix "figma.st=" c) as [rest|] eqn:Hp;
    [|discriminate].
  intros _. apply strip_prefix_app in Hp. subst c.
  unfold Cookie.value_cut. cbn [append Js.after_first Cookie.is_eq].
  repeat (rewrite split_cons by reflexivity).
  cbn. rewrite <- split_head. now destruct (Js.split _ rest).
Qed.

Lemma find_first {A} (f : A -> bool) before x after :
  Forall (fun y => f y = false) before -> f x = true ->
  find f (before ++ x :: after) = Some x.
Proof.
  induction 1 as [|y l Hy _ IH]; simpl; intros Hx.
  - now rewrite Hx.
  - rewrite Hy. auto.
Qed.

Lemma token_of_first before c after :
  Forall (fun y => Cookie.is_session_cookie y = false) before ->
  Cookie.is_session_cookie c = true ->
  Cookie.token_of (before ++ c :: after) = Some (Cookie.value_cut c).
Proof.
  intros Hb Hc. unfold Cookie.token_of. rewrite (find_first _ _ _ _ Hb Hc).
  now apply session_cookie_token.
Qed.

Lemma token_of_none cookies :
  Forall (fun y => Cookie.is_session_cookie y = false) cookies ->
  Cookie.token_of cookies = None.
Proof.
  intros H. unfold Cookie.token_of.
  destruct (find Cookie.is_session_cookie cookies) as [c|] eqn:Hf;
    [|reflexivity].
  apply find_some in Hf as [Hin Hc]. rewrite Forall_forall in H.
  rewrite (H _ Hin) in Hc. discriminate.
Qed.

End CookieFacts.

(** What the login does with the first cookie matching
    [/^figma\.st=[^;]/] of a response axios resolves with: the token it cuts
    is what lies between the first [=] and the next [=] or [;], or the end of
    the string; when that is not empty, the login resolves to a handle whose
    [Cookie] header is [figma.st=] followed by it. *)
Lemma login_binds_session_token
        net user password s t r before c after :
  reply net (login_request user password) = Some r ->
  validateStatus (status r) = true ->
  set_cookie (headers r) = Some (before ++ c :: after) ->
  Forall (fun y => Cookie.is_session_cookie y = false) before ->
  Cookie.is_session_cookie c = true ->
  Cookie.value_cut c <> EmptyString ->
  Cookie.token_of (before ++ c :: after) = Some (Cookie.value_cut c)
  /\ outcome (promise (login net user password s t))
     = Resolved {| baseURL := "https://www.figma.com";
                   Cookie := ("figma.st=" ++ Cookie.value_cut c)%string |}.
Proof.
  intros Hr Hv Hs Hb Hc Hne.
  pose proof (token_of_first before c after Hb Hc) as Ht.
  split; [exact Ht|].
  rewrite login_run. cbn [promise outcome]. unfold login_outcome.
  rewrite Hr, Hv, Hs, Ht.
  destruct (Cookie.value_cut c); [contradiction|reflexivity].
Qed.

Lemma login_binds_session_token_witness :
  outcome (promise (login Demo.good "me@example.org" "secret" tt 0))
  = Resolved Demo.handle.
Proof.
  apply (login_binds_session_token Demo.good "me@example.org" "secret" tt 0
           (Demo.with_cookies Demo.session)
           ["lang=en; Path=/"] "figma.st=tok123; Path=/; HttpOnly"
           ["figma.st=zz"]).
  - reflexivity.
  - reflexivity.
  - reflexivity.
  - repeat constructor.
  - reflexivity.
  - discriminate.
Defined.

(** The token is not always what lies between the first [=] and the next
    [;]: not when the value of the cookie holds a [=]. *)
Lemma token_is_not_cut_at_semicolon :
  ~ (forall net user password s t r before c after,
        reply net (login_request user password) = Some r ->
        validateStatus (status r) = true ->
        set_cookie (headers r) = Some (before ++ c :: after) ->
        Forall (fun y => Cookie.is_session_cookie y = false) before ->
        Cookie.is_session_cookie c = true ->
        outcome (promise (login net user password s t))
        = Resolved {| baseURL := "https://www.figma.com";
                      Cookie := ("figma.st="
                                 ++ Cookie.value_to_semicolon c)%string |}).
Proof.
  intros H.
  specialize (H (Demo.backend (Some ["figma.st=ab=cd; Path=/"])
                   (Demo.plain 200 Demo.no_hits) (Demo.plain 200 Demo.no_hits)
                   (Demo.plain 200 Demo.no_hits))
                "me@example.org" "secret" tt 0
                (Demo.with_cookies ["figma.st=ab=cd; Path=/"])
                [] "figma.st=ab=cd; Path=/" []
                eq_refl eq_refl eq_refl (Forall_nil _) eq_refl).
  vm_compute in H. discriminate H.
Qed.

(** C5.  The session cookie [figma.st=ab=cd; Path=/], whose value up to the
    next [;] is [ab=cd], is the first and only cookie of an accepted login
    response; the login resolves, and the handle it yields sends
    [Cookie: figma.st=ab]: the value is cut at its own [=], so the token
    replayed is not the one the backend set. *)
Theorem login_truncates_token_at_equals :
  let cookie := "figma.st=ab=cd; Path=/" in
  let net := Demo.backend (Some [cookie]) (Demo.plain 200 Demo.no_hits)
               (Demo.plain 200 Demo.no_hits) (Demo.plain 200 Demo.no_hits) in
  reply net (login_request "me@example.org" "secret")
  = Some (Demo.with_cookies [cookie])
  /\ Cookie.is_session_cookie cookie = true
  /\ Cookie.value_to_semicolon cookie = "ab=cd"
  /\ outcome (promise (login net "me@example.org" "secret" tt 0))
     = Resolved {| baseURL := "https://www.figma.com";
                   Cookie := "figma.st=ab" |}
  /\ outcome (promise (login net "me@example.org" "secret" tt 0))
     <> Resolved {| baseURL := "https://www.figma.com";
                    Cookie := ("figma.st="
                               ++ Cookie.value_to_semicolon cookie)%string |}.
Proof.
  cbv zeta. split; [reflexivity|]. split; [reflexivity|].
  split; [reflexivity|]. split; [reflexivity|].
  vm_compute. discriminate.
Qed.

(** C6.  A login response that axios resolves with and that carries no
    Set-Cookie header makes the factory fail with a TypeError, not with the
    error of a failed login. *)
Theorem login_without_set_cookie_header :
  let net := Demo.backend None (Demo.plain 200 Demo.no_hits)
               (Demo.plain 200 Demo.no_hits) (Demo.plain 200 Demo.no_hits) in
  reply net (login_request "me@example.org" "secret")
  = Some (Demo.plain 200 Demo.no_hits)
  /\ set_cookie (headers (Demo.plain 200 Demo.no_hits)) = None
  /\ outcome (promise (login net "me@example.org" "secret" tt 0))
     = Rejected TypeError
  /\ Rejected TypeError
     <> @Rejected AxiosInstance (Error "Figma login failed").
Proof. repeat split. discriminate. Qed.

(** X10.  When the Set-Cookie header is there and none of its cookies
    matches, the factory fails with the error of a failed login. *)
Lemma login_without_session_cookie net user password s t r cookies :
  reply net (login_request user password) = Some r ->
  validateStatus (status r) = true ->
  set_cookie (headers r) = Some cookies ->
  Forall (fun y => Cookie.is_session_cookie y = false) cookies ->
  outcome (promise (login net user password s t))
  = Rejected (Error "Figma login failed").
Proof.
  intros Hr Hv Hs Hc. rewrite login_run. cbn [promise outcome].
  unfold login_outcome. now rewrite Hr, Hv, Hs, (token_of_none _ Hc).
Qed.

(** ** Thumbnails and the three result shapes *)

(** C4.  A probe answered by a 302 with a [Location] header [L] resolves to
    the fragment linking the entity's url around an image whose source is
    [L]; a probe answered by any other status, 200 included, or not answered
    at all, rejects: there is no result without a thumbnail. *)
Theorem getThumbnail_needs_redirect
        net (S : Type) client f (s : S) t :
  (forall r L,
      reply net (thumbnail_request client f) = Some r ->
      status r = 302%Z ->
      location (headers r) = Some L ->
      outcome (promise (getThumbnail net client f s t))
      = Resolved ("<a href=" ++ Js.dquote ++ File.url f ++ Js.dquote
                  ++ "><img src=" ++ Js.dquote ++ L ++ Js.dquote
                  ++ "></a>")%string)
  /\ (forall r,
         reply net (thumbnail_request client f) = Some r ->
         status r <> 302%Z ->
         exists ex, outcome (promise (getThumbnail net client f s t))
                    = Rejected ex)
  /\ (reply net (thumbnail_request client f) = None ->
      exists ex, outcome (promise (getThumbnail net client f s t))
                 = Rejected ex).
Proof.
  rewrite getThumbnail_run. cbn [promise outcome]. unfold resolve.
  repeat split.
  - intros r L -> -> ->. reflexivity.
  - intros r -> Hs. apply Z.eqb_neq in Hs. rewrite Hs. now eexists.
  - intros ->. now eexists.
Qed.

Lemma getThumbnail_needs_redirect_witness :
  outcome (promise (getThumbnail Demo.good Demo.handle Demo.doc tt 0))
  = Resolved Demo.img
  /\ (exists ex,
         outcome (promise (getThumbnail Demo.good Demo.handle Demo.broken tt 0))
         = Rejected ex).
Proof.
  split.
  - apply (proj1 (getThumbnail_needs_redirect
                    Demo.good unit Demo.handle Demo.doc tt 0)
             (Demo.redirect "https://img.example/x.png")
             "https://img.example/x.png"); reflexivity.
  - apply (proj1 (proj2 (getThumbnail_needs_redirect
                           Demo.good unit Demo.handle Demo.broken tt 0))
             (Demo.plain 200 Demo.no_hits)); [reflexivity|discriminate].
Defined.

(** C2.  A file hit whose thumbnail probe is answered by a 302 with
    [Location] [L] is normalized to its name as title, its url as url, and as
    snippet "File created by ", the creator's handle, "<br>" and the thumbnail
    fragment; for the file Doc of alice this is the record of the
    specification. *)
Theorem file_result net el client e t r L :
  reply net (thumbnail_request client (FileHit.model el)) = Some r ->
  status r = 302%Z ->
  location (headers r) = Some L ->
  let f := FileHit.model el in
  outcome (promise (getResult net fig_files el client e t))
  = Resolved
      {| Result.snippet :=
           Some ("File created by " ++ File.handle (File.creator f) ++ "<br>"
                 ++ "<a href=" ++ Js.dquote ++ File.url f ++ Js.dquote
                 ++ "><img src=" ++ Js.dquote ++ L ++ Js.dquote
                 ++ "></a>")%string;
         Result.title := File.name f;
         Result.url := File.url f |}
  /\ (File.handle (File.creator f) = "alice" ->
      File.name f = "Doc" ->
      File.url f = "https://fig.example/f/2" ->
      L = "https://img.example/x.png" ->
      outcome (promise (getResult net fig_files el client e t))
      = Resolved
          {| Result.snippet :=
               Some ("File created by alice<br><a href=" ++ Js.dquote
                     ++ "https://fig.example/f/2" ++ Js.dquote
                     ++ "><img src=" ++ Js.dquote
                     ++ "https://img.example/x.png" ++ Js.dquote
                     ++ "></a>")%string;
             Result.title := "Doc";
             Result.url := "https://fig.example/f/2" |}).
Proof.
  intros Hr Hs HL f. subst f. set (f := FileHit.model el) in *.
  assert (H : outcome (promise (getResult net fig_files el client e t))
              = Resolved
                  {| Result.snippet :=
                       Some ("File created by "
                             ++ File.handle (File.creator f) ++ "<br>"
                             ++ "<a href=" ++ Js.dquote ++ File.url f
                             ++ Js.dquote ++ "><img src=" ++ Js.dquote ++ L
                             ++ Js.dquote ++ "></a>")%string;
                     Result.title := File.name f;
                     Result.url := File.url f |}).
  { pose proof (getResult_computes net fig_files client el e t) as H.
    unfold normalize, probed, resolve in H. cbn [traverse] in H.
    fold f in H. rewrite Hr, Hs, HL in H. exact H. }
  split; [exact H|].
  intros Hh Hn Hu ->. rewrite H, Hh, Hn, Hu. reflexivity.
Qed.

Lemma file_result_witness :
  outcome (promise (getResult Demo.good fig_files {| FileHit.model := Demo.doc |}
                              Demo.handle (Demo.ready Demo.good) 0))
  = Resolved
      {| Result.snippet :=
           Some ("File created by alice<br>" ++ Demo.img)%string;
         Result.title := "Doc";
         Result.url := "https://fig.example/f/2" |}.
Proof.
  apply (file_result Demo.good {| FileHit.model := Demo.doc |} Demo.handle
           (Demo.ready Demo.good) 0
           (Demo.redirect "https://img.example/x.png")
           "https://img.example/x.png"); reflexivity.
Defined.

(** C9.  A search on the module as loaded, before [init], is rejected at
    once with the error "Engine not initialized", whatever the query, and
    issues no request. *)
Theorem search_before_init net q t :
  search net q loaded t
  = {| promise := {| settled_at := t;
                     outcome := Rejected (Error "Engine not initialized") |};
       requests := [];
       state := loaded |}.
Proof.
  unfold search, bind, all, MODEL_TYPES. cbn [map start_all].
  rewrite !sub_query_uninit by reflexivity.
  cbn [state promise requests app]. unfold settle_all.
  cbn [first_rejection outcome settled_at].
  repeat (rewrite Nat.ltb_irrefl; cbn [first_rejection outcome settled_at]).
  reflexivity.
Qed.

(** ** The requests of a search, and what a failed one entails *)

Section FanOutFacts.
Variable net : Backend.

Lemma wraps_login_init options e0 : wraps_login net (init net options e0).
Proof. intros a [= <-]. now do 2 eexists. Qed.

Lemma wraps_login_lasting e a :
  wraps_login net e -> getClient e = Some a -> lasting (RateLimit.fn a).
Proof.
  intros H Ha t. destruct (H a Ha) as (u & p & ->). apply lasting_login.
Qed.

Lemma traverse_none_in {A B} (f : A -> option B) l x :
  In x l -> f x = None -> traverse f l = None.
Proof.
  induction l as [|y l IH]; simpl; [tauto|]. intros [->|Hin] Hx.
  - now rewrite Hx.
  - rewrite (IH Hin Hx). now destruct (f y).
Qed.

Lemma search_uninit q e t :
  getClient e = None ->
  search net q e t
  = {| promise := {| settled_at := t;
                     outcome := Rejected (Error "Engine not initialized") |};
       requests := [];
       state := e |}.
Proof.
  intros He. unfold search, bind, all, MODEL_TYPES. cbn [map start_all].
  rewrite (sub_query_uninit net q fig_files e t He). cbn [state].
  rewrite (sub_query_uninit net q folders e t He). cbn [state].
  rewrite (sub_query_uninit net q teams e t He).
  cbn [state promise requests app]. unfold settle_all.
  cbn [first_rejection outcome settled_at].
  repeat (rewrite Nat.ltb_irrefl; cbn [first_rejection outcome settled_at]).
  reflexivity.
Qed.

(** The requests the accessor causes are those of a login; when the login
    request fails, the promise handed out is rejected. *)
Lemma accessor_requests e a t req :
  wraps_login net e -> getClient e = Some a ->
  In req (snd (fst (RateLimit.call a t))) ->
  (exists u pw, req = login_request u pw)
  /\ (failed (reply net) req = true ->
      is_rejected (outcome (handed a t))).
Proof.
  intros Hw Ha Hin. destruct (Hw a Ha) as (u & pw & Hfn). unfold handed.
  destruct (call_requests a t) as [Hnil|[Hrq Hp]].
  - rewrite Hnil in Hin. destruct Hin.
  - rewrite Hrq in Hin. rewrite Hp. rewrite Hfn in *.
    rewrite login_run in *.
    cbn [requests promise outcome] in *. destruct Hin as [<-|[]].
    split; [now do 2 eexists|].
    unfold failed, accepted, login_outcome. cbn [is_probe login_request].
    destruct (reply net (login_request u pw)) as [r|]; [|now eexists].
    destruct (validateStatus (status r)); [discriminate|now eexists].
Qed.

Lemma kind_requests_shape org client q k req :
  In req (kind_requests (reply net) org client q k) ->
  req = search_request client k org q
  \/ exists f, req = thumbnail_request client f.
Proof.
  intros [<-|Hin]; [now left|right].
  destruct (accepted _ _) as [r|]; [|destruct Hin].
  apply in_flat_map in Hin as (el & _ & Hin).
  apply in_map_iff in Hin as (f & <- & _). now exists f.
Qed.

Lemma kind_requests_failed org client q k req :
  In req (kind_requests (reply net) org client q k) ->
  failed (reply net) req = true ->
  kind_results (reply net) org client q k = None.
Proof.
  unfold kind_requests, kind_results. intros [<-|Hin] Hf.
  - unfold failed in Hf. cbn [is_probe search_request] in Hf.
    now destruct (accepted _ _).
  - destruct (accepted _ _) as [r|]; [|reflexivity].
    apply in_flat_map in Hin as (el & Hel & Hin).
    apply in_map_iff in Hin as (f & <- & Hf').
    apply (traverse_none_in _ _ el Hel). unfold normalize.
    rewrite (traverse_none_in _ _ f Hf'); [reflexivity|].
    unfold failed in Hf. cbn [is_probe thumbnail_request] in Hf.
    unfold resolve.
    destruct (reply net (thumbnail_request client f)) as [r'|];
      [|reflexivity].
    now destruct (status r' =? 302)%Z.
Qed.

(** Where a request of a search comes from: the accessor, or one of the
    three sub-queries run with the client the accessor handed out. *)
Lemma search_requests_inv q e t req :
  wraps_login net e ->
  In req (requests (search net q e t)) ->
  exists a,
    getClient e = Some a
    /\ (In req (snd (fst (RateLimit.call a t)))
        \/ exists client,
             outcome (handed a t) = Resolved client
             /\ exists k, In req (kind_requests (reply net) (orgId e)
                                                client q k)).
Proof.
  intros Hw Hin. destruct (getClient e) as [a|] eqn:Ha.
  2:{ rewrite (search_uninit q e t Ha) in Hin. destruct Hin. }
  exists a. split; [reflexivity|].
  pose proof (wraps_login_lasting e a Hw Ha) as Hl. unfold handed.
  destruct (RateLimit.call a t) as [[p rq] a'] eqn:Hc. cbn [fst snd].
  destruct (outcome p) as [client|ex] eqn:Hp.
  - destruct (search_run net q e t a p rq a' client Ha Hl Hc Hp)
      as (Hreq & _ & _).
    rewrite Hreq in Hin.
    apply in_app_or in Hin as [Hin|Hin]; [now left|right].
    exists client. split; [reflexivity|].
    apply in_app_or in Hin as [Hin|Hin]; [now exists fig_files|].
    apply in_app_or in Hin as [Hin|Hin]; [now exists folders|].
    now exists teams.
  - rewrite (search_rejected_login net q e t a p rq a' ex Ha Hl Hc Hp) in Hin.
    now left.
Qed.

End FanOutFacts.

(** A search leaves an accessor that still wraps the login factory. *)
Lemma wraps_login_search net q e t :
  wraps_login net e -> wraps_login net (state (search net q e t)).
Proof.
  intros Hw. destruct (getClient e) as [a|] eqn:Ha.
  2:{ now rewrite (search_uninit net q e t Ha). }
  pose proof (wraps_login_lasting net e a Hw Ha) as Hl.
  pose proof (call_fn a t) as Hfn.
  destruct (RateLimit.call a t) as [[p rq] a'] eqn:Hc. cbn [snd] in Hfn.
  assert (H : wraps_login net (after_call a' e)).
  { intros a0 [= <-]. destruct (Hw a Ha) as (u & pw & Hu).
    exists u, pw. intros s t0. now rewrite Hfn. }
  destruct (outcome p) as [client|ex] eqn:Hp.
  - destruct (search_run net q e t a p rq a' client Ha Hl Hc Hp)
      as (_ & -> & _). exact H.
  - now rewrite (search_rejected_login net q e t a p rq a' ex Ha Hl Hc Hp).
Qed.

(** C1.  Whenever one of the requests a search issues does not go well (a
    search request of one of the three kinds that axios rejects, a thumbnail
    probe not answered by a 302, or the login), or the promise the accessor
    hands to the sub-queries is rejected, the whole search is rejected, with
    one error: it never resolves to the results of the kinds that went
    well. *)
Theorem search_all_or_nothing net q e t :
  wraps_login net e ->
  (forall req,
      In req (requests (search net q e t)) ->
      failed (reply net) req = true ->
      exists ex, outcome (promise (search net q e t)) = Rejected ex)
  /\ (forall a ex,
         getClient e = Some a ->
         outcome (handed a t) = Rejected ex ->
         outcome (promise (search net q e t)) = Rejected ex).
Proof.
  intros Hw.
  assert (Hacc : forall a ex,
             getClient e = Some a ->
             outcome (handed a t) = Rejected ex ->
             outcome (promise (search net q e t)) = Rejected ex).
  { intros a ex Ha Hex. unfold handed in Hex.
    destruct (RateLimit.call a t) as [[p rq] a'] eqn:Hc. cbn [fst] in Hex.
    now rewrite (search_rejected_login net q e t a p rq a' ex Ha
                   (wraps_login_lasting net e a Hw Ha) Hc Hex). }
  split; [|exact Hacc]. intros req Hin Hf.
  destruct (search_requests_inv net q e t req Hw Hin)
    as (a & Ha & [Hrq|(client & Hp & k & Hk)]).
  - destruct (accessor_requests net e a t req Hw Ha Hrq) as (_ & Hrej).
    destruct (Hrej Hf) as [ex Hex]. exists ex. now apply (Hacc a).
  - unfold handed in Hp.
    destruct (RateLimit.call a t) as [[p rq] a'] eqn:Hc. cbn [fst] in Hp.
    destruct (search_run net q e t a p rq a' client Ha
                (wraps_login_lasting net e a Hw Ha) Hc Hp) as (_ & _ & Ho).
    pose proof (kind_requests_failed net _ _ _ _ _ Hk Hf) as Hnone.
    destruct k; rewrite Hnone in Ho;
      repeat match type of Ho with
             | match ?x with _ => _ end => destruct x
             end; exact Ho.
Qed.

Lemma search_all_or_nothing_witness :
  let net := Demo.backend (Some Demo.session)
               (Demo.plain 200 (Demo.hits [{| FileHit.model := Demo.doc |}] [] []))
               (Demo.plain 200 (Demo.hits [] [Demo.proj] []))
               (Demo.plain 500 Demo.no_hits) in
  exists ex,
    outcome (promise (search net "doc" (Demo.ready net) 0)) = Rejected ex.
Proof.
  intros net.
  apply (proj1 (search_all_or_nothing net "doc" (Demo.ready net) 0
                  (wraps_login_init net Demo.options loaded))
           (search_request Demo.handle teams (Some "1234") "doc")).
  - vm_compute. do 7 right. left. reflexivity.
  - reflexivity.
Defined.

Lemma Forall2_traverse {A B} (f : A -> option B) l ys :
  Forall2 (fun x y => f x = Some y) l ys -> traverse f l = Some ys.
Proof.
  induction 1 as [|x y l ys Hx _ IH]; simpl; [reflexivity|].
  now rewrite Hx, IH.
Qed.


(** C3 (as amended).  With [org] the organization id that [init] stored
    (the decimal digits of the number it was given, a safe integer): a
    project hit whose first three recent files, at most, have their
    thumbnails resolved is normalized to the url
    https://www.figma.com/files/<org>/project/<id> and to a snippet that
    begins with "Project containing 1 file" when the count is 1 and with
    "Project containing <count> files" otherwise, goes on with "<br>" and
    ends with these fragments joined without separator; a team hit is
    normalized to the url https://www.figma.com/files/<org>/team/<id> and to
    the snippet "Team with 1 member" or "Team with <count> members"; every
    request of a search that carries query parameters carries [org] as
    [org_id].  The counts are safe integers, written in decimal. *)
Theorem project_and_team_results net e org :
  orgId e = Some org ->
  (forall options e0,
      Js.safe_integer (organization options) ->
      orgId (init net options e0)
      = Some (Js.number_to_string (organization options)))
  /\ (forall (el : ProjectHit.t) client t frags,
         Js.safe_integer (ProjectHit.file_count el) ->
         Forall2 (fun f frag => resolve (reply net) client f = Some frag)
                 (firstn 3 (ProjectHit.recent_files el)) frags ->
         outcome (promise (getResult net folders el client e t))
         = Resolved
             {| Result.snippet :=
                  Some ((if (ProjectHit.file_count el =? 1)%Z
                         then "Project containing 1 file"
                         else "Project containing "
                              ++ Js.number_to_string (ProjectHit.file_count el)
                              ++ " files")
                        ++ "<br>" ++ String.concat EmptyString frags)%string;
                Result.title := Named.name (ProjectHit.model el);
                Result.url :=
                  ("https://www.figma.com/files/" ++ org ++ "/project/"
                   ++ Named.id (ProjectHit.model el))%string |})
  /\ (forall (el : TeamHit.t) client t,
         Js.safe_integer (TeamHit.member_count el) ->
         outcome (promise (getResult net teams el client e t))
         = Resolved
             {| Result.snippet :=
                  Some (if (TeamHit.member_count el =? 1)%Z
                        then "Team with 1 member"
                        else "Team with "
                             ++ Js.number_to_string (TeamHit.member_count el)
                             ++ " members")%string;
                Result.title := Named.name (TeamHit.model el);
                Result.url :=
                  ("https://www.figma.com/files/" ++ org ++ "/team/"
                   ++ Named.id (TeamHit.model el))%string |})
  /\ (forall q t req ps,
         wraps_login net e ->
         In req (requests (search net q e t)) ->
         params_of req = Some ps ->
         org_id ps = Some org).
Proof.
  intros Ho. split; [reflexivity|]. split; [|split].
  - intros el client t frags _ Hf.
    pose proof (getResult_computes net folders client el e t) as H.
    unfold normalize, probed in H. cbv beta in H.
    rewrite (Forall2_traverse _ _ _ Hf), Ho in H. cbn [option_map] in H.
    rewrite H. unfold render, count_text, Js.join_empty, Js.template.
    now destruct (ProjectHit.file_count el =? 1)%Z.
  - intros el client t _.
    pose proof (getResult_computes net teams client el e t) as H.
    unfold normalize, probed in H. cbv beta in H. rewrite Ho in H.
    cbn [traverse option_map] in H.
    rewrite H. unfold render, count_text, Js.template.
    now destruct (TeamHit.member_count el =? 1)%Z.
  - intros q t req ps Hw Hin Hps.
    destruct (search_requests_inv net q e t req Hw Hin)
      as (a & Ha & [Hacc|(client & _ & k & Hk)]).
    + destruct (accessor_requests net e a t req Hw Ha Hacc)
        as ((u & pw & ->) & _). discriminate Hps.
    + destruct (kind_requests_shape net _ _ _ _ _ Hk) as [->|[f ->]].
      * cbn in Hps. injection Hps as <-. exact Ho.
      * discriminate Hps.
Qed.

Lemma project_and_team_results_witness :
  orgId (Demo.ready Demo.good) = Some "1234"
  /\ outcome (promise (getResult Demo.good teams Demo.team Demo.handle
                                 (Demo.ready Demo.good) 0))
     = Resolved {| Result.snippet := Some "Team with 1 member";
                   Result.title := "Design";
                   Result.url := "https://www.figma.com/files/1234/team/5" |}
  /\ outcome (promise (getResult Demo.good folders Demo.proj Demo.handle
                                 (Demo.ready Demo.good) 0))
     = Resolved {| Result.snippet :=
                     Some ("Project containing 4 files<br>"
                           ++ Demo.img ++ Demo.img ++ Demo.img)%string;
                   Result.title := "Site";
                   Result.url :=
                     "https://www.figma.com/files/1234/project/77" |}.
Proof.
  pose proof (project_and_team_results Demo.good (Demo.ready Demo.good)
                "1234" eq_refl) as (Hi & Hp & Ht & _).
  split; [|split].
  - apply (Hi Demo.options loaded). reflexivity.
  - apply Ht. reflexivity.
  - apply (Hp Demo.proj Demo.handle 0 [Demo.img; Demo.img; Demo.img]).
    + reflexivity.
    + repeat constructor.
Defined.

(** C3 (as stated) fails: the snippet of a project hit is not the count
    text followed at once by the fragments; for a project of one file
    without recent files it is not "Project containing 1 file". *)
Lemma project_snippet_is_not_text_then_fragments :
  ~ (forall net e org (el : ProjectHit.t) client t frags,
        orgId e = Some org ->
        Js.safe_integer (ProjectHit.file_count el) ->
        Forall2 (fun f frag => resolve (reply net) client f = Some frag)
                (firstn 3 (ProjectHit.recent_files el)) frags ->
        exists r,
          outcome (promise (getResult net folders el client e t)) = Resolved r
          /\ Result.url r
             = ("https://www.figma.com/files/" ++ org ++ "/project/"
                ++ Named.id (ProjectHit.model el))%string
          /\ Result.snippet r
             = Some ((if (ProjectHit.file_count el =? 1)%Z
                      then "Project containing 1 file"
                      else "Project containing "
                           ++ Js.number_to_string (ProjectHit.file_count el)
                           ++ " files")
                     ++ String.concat EmptyString frags)%string).
Proof.
  intros H.
  destruct (H Demo.good (Demo.ready Demo.good) "1234"
              {| ProjectHit.file_count := 1;
                 ProjectHit.model := {| Named.id := "8"; Named.name := "New" |};
                 ProjectHit.recent_files := [] |}
              Demo.handle 0 [] eq_refl eq_refl (Forall2_nil _))
    as (r & Hr & _ & Hs).
  vm_compute in Hr. injection Hr as <-. vm_compute in Hs. discriminate Hs.
Qed.

(** When a search resolves, and to what. *)
Lemma search_resolves_iff net q e t rs :
  wraps_login net e ->
  outcome (promise (search net q e t)) = Resolved rs
  <-> exists a client fs ps ts,
      getClient e = Some a
      /\ outcome (handed a t) = Resolved client
      /\ kind_results (reply net) (orgId e) client q fig_files = Some fs
      /\ kind_results (reply net) (orgId e) client q folders = Some ps
      /\ kind_results (reply net) (orgId e) client q teams = Some ts
      /\ rs = fs ++ ps ++ ts.
Proof.
  intros Hw. split.
  - intros Hrs. destruct (getClient e) as [a|] eqn:Ha.
    2:{ rewrite (search_uninit net q e t Ha) in Hrs. discriminate Hrs. }
    pose proof (wraps_login_lasting net e a Hw Ha) as Hl.
    exists a. unfold handed.
    destruct (RateLimit.call a t) as [[p rq] a'] eqn:Hc. cbn [fst].
    destruct (outcome p) as [client|ex] eqn:Hp.
    2:{ rewrite (search_rejected_login net q e t a p rq a' ex Ha Hl Hc Hp)
        in Hrs. discriminate Hrs. }
    exists client.
    destruct (search_run net q e t a p rq a' client Ha Hl Hc Hp)
      as (_ & _ & Ho).
    destruct (kind_results _ _ _ _ fig_files) as [fs|];
      [|destruct Ho as [ex Hex]; congruence].
    destruct (kind_results _ _ _ _ folders) as [ps|];
      [|destruct Ho as [ex Hex]; congruence].
    destruct (kind_results _ _ _ _ teams) as [ts|];
      [|destruct Ho as [ex Hex]; congruence].
    exists fs, ps, ts. repeat split. congruence.
  - intros (a & client & fs & ps & ts & Ha & Hp & Hf & Hps & Hts & ->).
    pose proof (wraps_login_lasting net e a Hw Ha) as Hl.
    unfold handed in Hp.
    destruct (RateLimit.call a t) as [[p rq] a'] eqn:Hc. cbn [fst] in Hp.
    destruct (search_run net q e t a p rq a' client Ha Hl Hc Hp)
      as (_ & _ & Ho).
    now rewrite Hf, Hps, Hts in Ho.
Qed.


(** A backend that answers the same and takes as long to log in is wrapped
    by the same accessor. *)
Lemma wraps_login_retimed net net' e :
  reply net' = reply net ->
  (forall u pw, latency net' (login_request u pw)
                = latency net (login_request u pw)) ->
  wraps_login net e -> wraps_login net' e.
Proof.
  intros Hr Hl Hw a Ha. destruct (Hw a Ha) as (u & pw & Hfn).
  exists u, pw. intros s t. now rewrite Hfn, !login_run, Hr, Hl.
Qed.

(** C7.  A search resolves to a list exactly when the accessor hands out a
    client and each of the three kinds has its results, and the list is then
    the results of the files, followed by those of the projects, followed by
    those of the teams, each in the order of the backend's elements, nothing
    dropped and nothing moved.  The order in which the sub-queries and the
    probes complete has no part in it: a backend that gives the same replies
    with other durations for the search requests and the probes leads to the
    same list. *)
Theorem search_order net q e t rs :
  wraps_login net e ->
  (outcome (promise (search net q e t)) = Resolved rs
   <-> exists a client fs ps ts,
       getClient e = Some a
       /\ outcome (handed a t) = Resolved client
       /\ kind_results (reply net) (orgId e) client q fig_files = Some fs
       /\ kind_results (reply net) (orgId e) client q folders = Some ps
       /\ kind_results (reply net) (orgId e) client q teams = Some ts
       /\ rs = fs ++ ps ++ ts)
  /\ (forall net',
         reply net' = reply net ->
         (forall u pw, latency net' (login_request u pw)
                       = latency net (login_request u pw)) ->
         outcome (promise (search net q e t)) = Resolved rs ->
         outcome (promise (search net' q e t)) = Resolved rs).
Proof.
  intros Hw. split; [now apply search_resolves_iff|].
  intros net' Hr Hl H.
  apply (search_resolves_iff net' q e t rs
           (wraps_login_retimed net net' e Hr Hl Hw)).
  rewrite Hr. now apply (search_resolves_iff net q e t rs Hw).
Qed.

Lemma search_order_witness :
  outcome (promise (search Demo.good "doc" (Demo.ready Demo.good) 0))
  = Resolved
      ([ {| Result.snippet :=
              Some ("File created by alice<br>" ++ Demo.img)%string;
            Result.title := "Doc"; Result.url := "https://fig.example/f/2" |} ]
       ++ [ {| Result.snippet :=
                 Some ("Project containing 4 files<br>"
                       ++ Demo.img ++ Demo.img ++ Demo.img)%string;
               Result.title := "Site";
               Result.url := "https://www.figma.com/files/1234/project/77" |} ]
       ++ [ {| Result.snippet := Some "Team with 1 member";
               Result.title := "Design";
               Result.url := "https://www.figma.com/files/1234/team/5" |} ]).
Proof.
  apply (proj2 (proj1 (search_order Demo.good "doc" (Demo.ready Demo.good) 0 _
                         (wraps_login_init Demo.good Demo.options loaded)))).
  exists (RateLimit.rateLimit (login Demo.good "me@example.org" "secret") 24).
  exists Demo.handle.
  do 3 eexists. repeat split; reflexivity.
Defined.

(** C10.  After [init], when the accessor hands out a client and each of the
    three search requests is answered by an accepted response with no
    element, the search resolves to the empty list, and none of the requests
    it issued is a thumbnail probe. *)
Theorem search_nothing_found net q e t a client :
  wraps_login net e ->
  getClient e = Some a ->
  outcome (handed a t) = Resolved client ->
  (forall k, exists r,
        reply net (search_request client k (orgId e) q) = Some r
        /\ validateStatus (status r) = true
        /\ results r k = []) ->
  outcome (promise (search net q e t)) = Resolved []
  /\ Forall (fun req => is_probe req = false) (requests (search net q e t)).
Proof.
  intros Hw Ha Hp Hk.
  assert (Hres : forall k,
             kind_results (reply net) (orgId e) client q k = Some []
             /\ kind_requests (reply net) (orgId e) client q k
                = [search_request client k (orgId e) q]).
  { intros k. destruct (Hk k) as (r & Hr & Hv & He).
    unfold kind_results, kind_requests, accepted. rewrite Hr, Hv, He.
    split; reflexivity. }
  split.
  - apply (search_resolves_iff net q e t [] Hw).
    exists a, client, [], [], []. repeat split; try assumption; apply Hres.
  - apply Forall_forall. intros req Hin.
    destruct (search_requests_inv net q e t req Hw Hin)
      as (a0 & Ha0 & [Hacc|(c0 & Hc0 & k & Hin')]).
    + destruct (accessor_requests net e a0 t req Hw Ha0 Hacc)
        as ((u & pw & ->) & _). reflexivity.
    + rewrite Ha in Ha0. injection Ha0 as <-. rewrite Hp in Hc0.
      injection Hc0 as <-. rewrite (proj2 (Hres k)) in Hin'.
      destruct Hin' as [<-|[]]. reflexivity.
Qed.

Lemma search_nothing_found_witness :
  let net := Demo.backend (Some Demo.session) (Demo.plain 200 Demo.no_hits)
               (Demo.plain 200 Demo.no_hits) (Demo.plain 200 Demo.no_hits) in
  outcome (promise (search net "doc" (Demo.ready net) 0)) = Resolved []
  /\ Forall (fun req => is_probe req = false)
            (requests (search net "doc" (Demo.ready net) 0)).
Proof.
  intros net.
  apply (search_nothing_found net "doc" (Demo.ready net) 0
           (RateLimit.rateLimit (login net "me@example.org" "secret") 24)
           Demo.handle).
  - apply wraps_login_init.
  - reflexivity.
  - reflexivity.
  - intros k. exists (Demo.plain 200 Demo.no_hits).
    destruct k; repeat split; reflexivity.
Defined.

(** ** Single flight *)

Section SingleFlight.
Context {A : Type}.

Lemma calls_in_flight (a : RateLimit.t A) p times :
  RateLimit.cached a = Some p ->
  Forall (fun t => t < settled_at p) times ->
  RateLimit.calls a times = (repeat p (length times), a).
Proof.
  intros Hc. induction 1 as [|t times Ht _ IH]; simpl; [reflexivity|].
  unfold RateLimit.call. rewrite Hc, (serves_in_flight _ _ Ht), IH.
  reflexivity.
Qed.

Lemma serves_rejected (p : Promise A) ex now :
  outcome p = Rejected ex -> settled_at p <= now ->
  RateLimit.serves p now = false.
Proof.
  intros Hp Hle. unfold RateLimit.serves. rewrite Hp.
  now apply Nat.ltb_ge.
Qed.

End SingleFlight.

(** C8.  Callers that reach the accessor before the promise of the first
    invocation of the factory has settled cause one invocation in all and
    are all handed that one promise, hence the same handle or the same
    rejection; when that promise is rejected nothing stays cached, and the
    next call invokes the factory again. *)
Theorem single_flight {A} (fn : Task unit A) hours t0 later :
  let p := promise (fn tt t0) in
  let served := RateLimit.calls (RateLimit.rateLimit fn hours) (t0 :: later) in
  Forall (fun t => t < settled_at p) (t0 :: later) ->
  fst served = repeat p (Datatypes.S (length later))
  /\ RateLimit.invocations (snd served) = 1
  /\ (forall ex t',
         outcome p = Rejected ex ->
         settled_at p <= t' ->
         RateLimit.serves p t' = false
         /\ fst (fst (RateLimit.call (snd served) t')) = promise (fn tt t')
         /\ RateLimit.invocations (snd (RateLimit.call (snd served) t')) = 2).
Proof.
  intros p served H. inversion H as [|? ? _ Hlater]; subst.
  assert (Hs : served
               = (repeat p (Datatypes.S (length later)),
                  {| RateLimit.fn := fn; RateLimit.hours := hours;
                     RateLimit.cached := Some p;
                     RateLimit.invocations := 1 |})).
  { unfold served. cbn [RateLimit.calls]. unfold RateLimit.call at 1.
    cbn [RateLimit.rateLimit RateLimit.cached RateLimit.invoke RateLimit.fn
         RateLimit.hours RateLimit.invocations].
    fold p.
    rewrite (calls_in_flight
               {| RateLimit.fn := fn; RateLimit.hours := hours;
                  RateLimit.cached := Some p; RateLimit.invocations := 1 |}
               p later eq_refl Hlater).
    reflexivity. }
  rewrite Hs. cbn [fst snd RateLimit.invocations]. repeat split.
  - now apply serves_rejected with ex.
  - unfold RateLimit.call. cbn [RateLimit.cached].
    now rewrite (serves_rejected p ex t').
  - unfold RateLimit.call. cbn [RateLimit.cached].
    now rewrite (serves_rejected p ex t').
Qed.

Lemma single_flight_witness :
  let net := Demo.backend None (Demo.plain 200 Demo.no_hits)
               (Demo.plain 200 Demo.no_hits) (Demo.plain 200 Demo.no_hits) in
  let fn := login net "me@example.org" "secret" in
  let served := RateLimit.calls (RateLimit.rateLimit fn 24) [0; 0; 3; 7] in
  map outcome (fst served) = repeat (Rejected TypeError) 4
  /\ RateLimit.invocations (snd served) = 1
  /\ RateLimit.invocations (snd (RateLimit.call (snd served) 8)) = 2.
Proof.
  intros net fn served.
  assert (H : Forall (fun t => t < 8) [0; 0; 3; 7]) by (repeat constructor).
  destruct (single_flight fn 24 0 [0; 3; 7] H) as (Hp & Hi & Hr).
  destruct (Hr TypeError 8 eq_refl (le_n 8)) as (_ & _ & Hi').
  split; [exact (f_equal (map outcome) Hp)|]. split; [exact Hi|exact Hi'].
Defined.

(** ** The model at work *)

Example number_to_string_ex :
  Js.number_to_string 42 = "42" /\ Js.number_to_string 0 = "0"
  /\ Js.number_to_string (-7) = "-7".
Proof. repeat split. Qed.

Example split_ex :
  Js.split Cookie.eq_or_semi "figma.st=abc; Path=/"
  = ["figma.st"; "abc"; " Path"; "/"].
Proof. reflexivity. Qed.

Example token_of_ex :
  Cookie.token_of ["lang=en"; "figma.st=abc; Path=/"; "figma.st=zzz"]
  = Some "abc".
Proof. reflexivity. Qed.

Example demo_search :
  outcome (promise (search Demo.good "doc" (Demo.ready Demo.good) 0))
  = Resolved
      [ {| Result.snippet := Some ("File created by alice<br>" ++ Demo.img)%string;
           Result.title := "Doc"; Result.url := "https://fig.example/f/2" |};
        {| Result.snippet :=
             Some ("Project containing 4 files<br>"
                   ++ Demo.img ++ Demo.img ++ Demo.img)%string;
           Result.title := "Site";
           Result.url := "https://www.figma.com/files/1234/project/77" |};
        {| Result.snippet := Some "Team with 1 member";
           Result.title := "Design";
           Result.url := "https://www.figma.com/files/1234/team/5" |} ].
Proof. vm_compute. reflexivity. Qed.

Example demo_search_retimed :
  outcome (promise (search Demo.retimed "doc" (Demo.ready Demo.good) 0))
  = outcome (promise (search Demo.good "doc" (Demo.ready Demo.good) 0))
  /\ settled_at (promise (search Demo.retimed "doc" (Demo.ready Demo.good) 0))
     = 44.
Proof. vm_compute. split; reflexivity. Qed.

Example demo_search_requests :
  length (requests (search Demo.good "doc" (Demo.ready Demo.good) 0)) = 8
  /\ settled_at (promise (search Demo.good "doc" (Demo.ready Demo.good) 0)) = 20.
Proof. vm_compute. split; reflexivity. Qed.

(** * Further properties of the engine *)

(** ** The thumbnail resolver *)

(** X1.  Whatever the backend answers, resolving a thumbnail issues one
    request and only one: the GET of the file's [thumbnail_url] through the
    client, without query parameters and with redirects switched off; the
    task settles when that round trip ends and leaves the state alone. *)
Theorem getThumbnail_one_request net (S : Type) client f (s : S) t :
  let r := getThumbnail net client f s t in
  let probe := Get client (File.thumbnail_url f) None (Some 0) in
  requests r = [probe]
  /\ settled_at (promise r) = t + Datatypes.S (latency net probe)
  /\ state r = s.
Proof. cbv zeta. rewrite getThumbnail_run. repeat split. Qed.

(** X2.  The error of a failed thumbnail: a probe answered with a status
    from 200 to 299 ends in the engine's own "Thumbnail URL not found"; a
    probe answered with any other status but 302 ends in the axios error
    itself, response included; a probe without answer ends in the axios
    error without response. *)
Theorem getThumbnail_errors net (S : Type) client f (s : S) t :
  (forall r,
      reply net (thumbnail_request client f) = Some r ->
      validateStatus (status r) = true ->
      outcome (promise (getThumbnail net client f s t))
      = Rejected (Error "Thumbnail URL not found"))
  /\ (forall r,
         reply net (thumbnail_request client f) = Some r ->
         validateStatus (status r) = false ->
         status r <> 302%Z ->
         outcome (promise (getThumbnail net client f s t))
         = Rejected (AxiosError (Some r)))
  /\ (reply net (thumbnail_request client f) = None ->
      outcome (promise (getThumbnail net client f s t))
      = Rejected (AxiosError None)).
Proof.
  rewrite getThumbnail_run. cbn [promise outcome].
  unfold resolve, probe_error. repeat split.
  - intros r -> Hv. now rewrite (validateStatus_not_302 _ Hv), Hv.
  - intros r -> Hv Hs. apply Z.eqb_neq in Hs. now rewrite Hs, Hv.
  - now intros ->.
Qed.

Lemma getThumbnail_errors_witness :
  outcome (promise (getThumbnail Demo.good Demo.handle Demo.broken tt 0))
  = Rejected (Error "Thumbnail URL not found")
  /\ (let net := {| reply := fun _ => Some (Demo.plain 404 Demo.no_hits);
                    latency := fun _ => 0 |} in
      outcome (promise (getThumbnail net Demo.handle Demo.doc tt 0))
      = Rejected (AxiosError (Some (Demo.plain 404 Demo.no_hits))))
  /\ (let net := {| reply := fun _ => None; latency := fun _ => 0 |} in
      outcome (promise (getThumbnail net Demo.handle Demo.doc tt 0))
      = Rejected (AxiosError None)).
Proof.
  split; [|split].
  - apply (proj1 (getThumbnail_errors Demo.good unit Demo.handle Demo.broken
                    tt 0) (Demo.plain 200 Demo.no_hits)); reflexivity.
  - apply (proj1 (proj2 (getThumbnail_errors
                           {| reply := fun _ => Some (Demo.plain 404 Demo.no_hits);
                              latency := fun _ => 0 |}
                           unit Demo.handle Demo.doc tt 0))
             (Demo.plain 404 Demo.no_hits));
      [reflexivity|reflexivity|discriminate].
  - apply (proj2 (proj2 (getThumbnail_errors
                           {| reply := fun _ => None; latency := fun _ => 0 |}
                           unit Demo.handle Demo.doc tt 0))).
    reflexivity.
Defined.

(** X3.  A probe answered by a 302 that carries no [Location] header does
    not fail: it resolves to a fragment whose image source is the text
    "undefined". *)
Theorem getThumbnail_302_without_location net (S : Type) client f (s : S) t r :
  reply net (thumbnail_request client f) = Some r ->
  status r = 302%Z ->
  location (headers r) = None ->
  outcome (promise (getThumbnail net client f s t))
  = Resolved ("<a href=" ++ Js.dquote ++ File.url f ++ Js.dquote
              ++ "><img src=" ++ Js.dquote ++ "undefined" ++ Js.dquote
              ++ "></a>")%string.
Proof.
  intros Hr Hs Hl. rewrite getThumbnail_run. cbn [promise outcome].
  unfold resolve. now rewrite Hr, Hs, Hl.
Qed.

Lemma getThumbnail_302_without_location_witness :
  let bare := {| status := 302;
                 headers := {| set_cookie := None; location := None |};
                 results := Demo.no_hits |} in
  let net := {| reply := fun _ => Some bare; latency := fun _ => 0 |} in
  outcome (promise (getThumbnail net Demo.handle Demo.doc tt 0))
  = Resolved ("<a href=" ++ Js.dquote ++ "https://fig.example/f/2"
              ++ Js.dquote ++ "><img src=" ++ Js.dquote ++ "undefined"
              ++ Js.dquote ++ "></a>")%string.
Proof.
  intros bare net.
  apply (getThumbnail_302_without_location net unit Demo.handle Demo.doc tt 0
           bare); reflexivity.
Defined.

(** ** The three normalizers *)

(** X4.  The requests a hit causes are thumbnail probes through the client
    of its sub-query, one for a file hit, one for each of the first three
    recent files of a project hit, none for a team hit: never more than
    three, whether or not the hit can be normalized. *)
Theorem hit_probes net k (el : Hit k) client e t :
  requests (getResult net k el client e t)
  = map (fun f => Get client (File.thumbnail_url f) None (Some 0))
        (match k return Hit k -> list File.t with
         | fig_files => fun el => [FileHit.model el]
         | folders => fun el => firstn 3 (ProjectHit.recent_files el)
         | teams => fun _ => []
         end el)
  /\ length (requests (getResult net k el client e t)) <= 3.
Proof.
  rewrite getResult_requests. split; [reflexivity|].
  rewrite length_map. destruct k; cbn [probed length]; try lia.
  apply firstn_le_length.
Qed.

(** X5.  A project hit is normalized from its count, its model and its first
    three recent files only: two hits that agree on these are treated alike
    in every respect, whatever recent files follow. *)
Theorem project_ignores_later_files net (el el' : ProjectHit.t) client e t :
  ProjectHit.file_count el = ProjectHit.file_count el' ->
  ProjectHit.model el = ProjectHit.model el' ->
  firstn 3 (ProjectHit.recent_files el)
  = firstn 3 (ProjectHit.recent_files el') ->
  getResult net folders el client e t = getResult net folders el' client e t.
Proof.
  intros Hc Hm Hf. cbn [getResult]. now rewrite Hc, Hm, Hf.
Qed.

Lemma project_ignores_later_files_witness :
  let shorter :=
    {| ProjectHit.file_count := 4;
       ProjectHit.model := {| Named.id := "77"; Named.name := "Site" |};
       ProjectHit.recent_files := [Demo.doc; Demo.doc; Demo.doc] |} in
  getResult Demo.good folders Demo.proj Demo.handle (Demo.ready Demo.good) 0
  = getResult Demo.good folders shorter Demo.handle (Demo.ready Demo.good) 0.
Proof.
  intros shorter.
  apply (project_ignores_later_files Demo.good Demo.proj shorter);
    reflexivity.
Defined.

(** X6.  A project hit without recent files, its count a safe integer, is
    normalized at once and without any request, whatever the backend: its
    snippet is the count text, in decimal, followed by "<br>" and nothing
    else. *)
Theorem project_without_recent_files net (el : ProjectHit.t) client e t :
  ProjectHit.recent_files el = [] ->
  Js.safe_integer (ProjectHit.file_count el) ->
  getResult net folders el client e t
  = {| promise :=
         {| settled_at := t;
            outcome :=
              Resolved
                {| Result.snippet :=
                     Some ("Project containing "
                           ++ (if (ProjectHit.file_count el =? 1)%Z
                               then "1 file"
                               else Js.number_to_string
                                      (ProjectHit.file_count el) ++ " files")
                           ++ "<br>")%string;
                   Result.title := Named.name (ProjectHit.model el);
                   Result.url :=
                     ("https://www.figma.com/files/" ++ Js.template (orgId e)
                      ++ "/project/"
                      ++ Named.id (ProjectHit.model el))%string |} |};
       requests := [];
       state := e |}.
Proof.
  intros Hr _. cbn [getResult]. rewrite Hr. reflexivity.
Qed.

Lemma project_without_recent_files_witness :
  let empty :=
    {| ProjectHit.file_count := 0;
       ProjectHit.model := {| Named.id := "8"; Named.name := "New" |};
       ProjectHit.recent_files := [] |} in
  outcome (promise (getResult Demo.good folders empty Demo.handle
                              (Demo.ready Demo.good) 5))
  = Resolved
      {| Result.snippet := Some "Project containing 0 files<br>";
         Result.title := "New";
         Result.url := "https://www.figma.com/files/1234/project/8" |}.
Proof.
  intros empty.
  rewrite (project_without_recent_files Demo.good empty Demo.handle
             (Demo.ready Demo.good) 5 eq_refl eq_refl).
  reflexivity.
Defined.

(** X7.  Whatever the kind, a hit that is normalized gets the name of its
    model as title, and always a snippet. *)
Theorem result_title_and_snippet net k (el : Hit k) client e t r :
  outcome (promise (getResult net k el client e t)) = Resolved r ->
  Result.title r = hit_name k el /\ Result.snippet r <> None.
Proof.
  intros Hr. pose proof (getResult_computes net k client el e t) as H.
  cbv beta in H. unfold normalize in H.
  destruct (traverse _ _) as [frags|]; cbn [option_map] in H.
  - rewrite H in Hr. injection Hr as <-.
    destruct k; cbn [render hit_name Result.title Result.snippet];
      split; [reflexivity|discriminate|reflexivity|discriminate
             |reflexivity|discriminate].
  - destruct H as [ex H]. congruence.
Qed.

Lemma result_title_and_snippet_witness :
  let r := {| Result.snippet := Some "Team with 1 member";
              Result.title := "Design";
              Result.url := "https://www.figma.com/files/1234/team/5" |} in
  Result.title r = hit_name teams Demo.team /\ Result.snippet r <> None.
Proof.
  intros r.
  apply (result_title_and_snippet Demo.good teams Demo.team Demo.handle
           (Demo.ready Demo.good) 0 r).
  reflexivity.
Defined.

(** ** The login factory *)

Lemma login_without_session_cookie_witness :
  let net := Demo.backend (Some ["lang=en"; "figma.st=; Path=/"; "figma.sta=1"])
               (Demo.plain 200 Demo.no_hits) (Demo.plain 200 Demo.no_hits)
               (Demo.plain 200 Demo.no_hits) in
  outcome (promise (login net "me@example.org" "secret" tt 0))
  = Rejected (Error "Figma login failed").
Proof.
  intros net.
  apply (login_without_session_cookie net "me@example.org" "secret" tt 0
           (Demo.with_cookies ["lang=en"; "figma.st=; Path=/"; "figma.sta=1"])
           ["lang=en"; "figma.st=; Path=/"; "figma.sta=1"]);
    try reflexivity.
  repeat constructor.
Defined.

(** X8.  The credentials leave in one request and only one, whether the
    login succeeds or not: the POST to the session login URL, with the user
    both as email and as username, sent as JSON; the factory settles when
    that round trip ends. *)
Theorem login_posts_once net user password s t :
  let r := login net user password s t in
  let post := Post "https://www.figma.com/api/session/login"
                   user password user "application/json" in
  requests r = [post]
  /\ settled_at (promise r) = t + Datatypes.S (latency net post).
Proof. cbv zeta. rewrite login_run. split; reflexivity. Qed.

(** X9.  A login answered with a status outside 200 to 299 fails with the
    axios error carrying that response, whatever cookies the response sets,
    a valid session cookie included; a login without answer fails with the
    axios error without response. *)
Theorem login_rejected_status net user password s t :
  (forall r,
      reply net (login_request user password) = Some r ->
      validateStatus (status r) = false ->
      outcome (promise (login net user password s t))
      = Rejected (AxiosError (Some r)))
  /\ (reply net (login_request user password) = None ->
      outcome (promise (login net user password s t))
      = Rejected (AxiosError None)).
Proof.
  rewrite login_run. cbn [promise outcome]. unfold login_outcome. split.
  - intros r -> Hv. now rewrite Hv.
  - now intros ->.
Qed.

Lemma login_rejected_status_witness :
  let refused :=
    {| status := 401;
       headers := {| set_cookie := Some Demo.session; location := None |};
       results := Demo.no_hits |} in
  (let net := {| reply := fun _ => Some refused; latency := fun _ => 2 |} in
   outcome (promise (login net "me@example.org" "secret" tt 0))
   = Rejected (AxiosError (Some refused)))
  /\ (let net := {| reply := fun _ => None; latency := fun _ => 2 |} in
      outcome (promise (login net "me@example.org" "secret" tt 0))
      = Rejected (AxiosError None)).
Proof.
  intros refused. split.
  - apply (proj1 (login_rejected_status
                    {| reply := fun _ => Some refused; latency := fun _ => 2 |}
                    "me@example.org" "secret" tt 0) refused); reflexivity.
  - apply (proj2 (login_rejected_status
                    {| reply := fun _ => None; latency := fun _ => 2 |}
                    "me@example.org" "secret" tt 0)).
    reflexivity.
Defined.

(** X11.  A cookie is taken for the session cookie exactly when it starts
    with [figma.st=] and goes on with a character other than [;]. *)
Theorem session_cookie_pattern c :
  Cookie.is_session_cookie c = true
  <-> exists ch rest,
      c = ("figma.st=" ++ String ch rest)%string /\ ch <> ";"%char.
Proof.
  unfold Cookie.is_session_cookie, Cookie.is_semi. split.
  - destruct (Js.strip_prefix "figma.st=" c) as [[|ch rest]|] eqn:Hp;
      try discriminate.
    intros Hch. exists ch, rest. split; [now apply strip_prefix_app|].
    intros ->. discriminate Hch.
  - intros (ch & rest & -> & Hch). cbn.
    destruct (Ascii.eqb_spec ch ";"); [contradiction|reflexivity].
Qed.

(** X12.  When the first session cookie has a value that starts with [=],
    the token cut from it is empty and the login fails as if there were no
    session cookie at all. *)
Theorem login_empty_token net user password s t r before rest after :
  reply net (login_request user password) = Some r ->
  validateStatus (status r) = true ->
  set_cookie (headers r)
  = Some (before ++ ("figma.st==" ++ rest)%string :: after) ->
  Forall (fun y => Cookie.is_session_cookie y = false) before ->
  outcome (promise (login net user password s t))
  = Rejected (Error "Figma login failed").
Proof.
  intros Hr Hv Hs Hb. rewrite login_run. cbn [promise outcome].
  unfold login_outcome. rewrite Hr, Hv, Hs.
  now rewrite (token_of_first before ("figma.st==" ++ rest) after Hb eq_refl).
Qed.

Lemma login_empty_token_witness :
  let net := Demo.backend (Some ["lang=en"; "figma.st==abc; Path=/"])
               (Demo.plain 200 Demo.no_hits) (Demo.plain 200 Demo.no_hits)
               (Demo.plain 200 Demo.no_hits) in
  outcome (promise (login net "me@example.org" "secret" tt 0))
  = Rejected (Error "Figma login failed").
Proof.
  intros net.
  apply (login_empty_token net "me@example.org" "secret" tt 0
           (Demo.with_cookies ["lang=en"; "figma.st==abc; Path=/"])
           ["lang=en"] "abc; Path=/" []); try reflexivity.
  repeat constructor.
Defined.

Lemma split_pieces_clean sep s piece :
  In piece (Js.split sep s) -> every_char (fun c => negb (sep c)) piece = true.
Proof.
  revert piece. induction s as [|c s IH]; simpl; intros piece.
  - intros [<-|[]]. reflexivity.
  - destruct (sep c) eqn:Hc.
    + intros [<-|Hin]; [reflexivity|auto].
    + destruct (Js.split sep s) as [|h tl]; simpl.
      * intros [<-|[]]. simpl. now rewrite Hc.
      * intros [<-|Hin]; [|apply IH; now right].
        simpl. rewrite Hc. apply IH. now left.
Qed.

(** X13.  Every handle the login produces is bound to
    https://www.figma.com and sends the header [Cookie: figma.st=<token>]
    with a token that is not empty and holds neither [=] nor [;]. *)
Theorem login_handle_shape net user password s t h :
  outcome (promise (login net user password s t)) = Resolved h ->
  baseURL h = "https://www.figma.com"
  /\ exists token,
      Cookie h = ("figma.st=" ++ token)%string
      /\ token <> EmptyString
      /\ every_char (fun c => negb (Cookie.eq_or_semi c)) token = true.
Proof.
  rewrite login_run. cbn [promise outcome]. unfold login_outcome.
  destruct (reply net _) as [r|]; [|discriminate].
  destruct (validateStatus _); [|discriminate].
  destruct (set_cookie _) as [cookies|]; [|discriminate].
  destruct (Cookie.token_of cookies) as [[|c token]|] eqn:Ht;
    try discriminate.
  intros [= <-]. split; [reflexivity|]. exists (String c token).
  repeat split; [discriminate|].
  unfold Cookie.token_of in Ht.
  destruct (find _ cookies) as [ck|]; [|discriminate].
  apply nth_error_In in Ht. now apply split_pieces_clean in Ht.
Qed.

Lemma login_handle_shape_witness :
  baseURL Demo.handle = "https://www.figma.com"
  /\ exists token,
      Cookie Demo.handle = ("figma.st=" ++ token)%string
      /\ token <> EmptyString
      /\ every_char (fun c => negb (Cookie.eq_or_semi c)) token = true.
Proof.
  apply (login_handle_shape Demo.good "me@example.org" "secret" tt 0).
  reflexivity.
Defined.

(** ** One sub-query, once it holds the client *)

(** X14.  A search request that axios rejects ends its sub-query with the
    axios error itself, response included, and no thumbnail is probed for
    that kind: the search request is the only request of the sub-query. *)
Theorem query_kind_rejected net q k client e t r :
  reply net (search_request client k (orgId e) q) = Some r ->
  validateStatus (status r) = false ->
  outcome (promise (query_kind net q k client e t))
  = Rejected (AxiosError (Some r))
  /\ requests (query_kind net q k client e t)
     = [search_request client k (orgId e) q].
Proof.
  intros Hr Hv. split.
  - unfold query_kind, bind, get_state, send.
    cbn [promise outcome requests state settled_at app]. now rewrite Hr, Hv.
  - rewrite query_kind_requests. unfold kind_requests, accepted.
    now rewrite Hr, Hv.
Qed.

Lemma query_kind_rejected_witness :
  let net := Demo.backend (Some Demo.session)
               (Demo.plain 200 Demo.no_hits) (Demo.plain 200 Demo.no_hits)
               (Demo.plain 503 (Demo.hits [] [] [Demo.team])) in
  outcome (promise (query_kind net "doc" teams Demo.handle (Demo.ready net) 0))
  = Rejected (AxiosError (Some (Demo.plain 503 (Demo.hits [] [] [Demo.team]))))
  /\ requests (query_kind net "doc" teams Demo.handle (Demo.ready net) 0)
     = [search_request Demo.handle teams (Some "1234") "doc"].
Proof.
  intros net.
  apply (query_kind_rejected net "doc" teams Demo.handle (Demo.ready net) 0
           (Demo.plain 503 (Demo.hits [] [] [Demo.team]))); reflexivity.
Defined.

(** ** The search as a whole *)

Lemma filter_none {A} (f : A -> bool) l :
  (forall x, In x l -> f x = false) -> filter f l = [].
Proof.
  induction l as [|x l IH]; simpl; intros H; [reflexivity|].
  rewrite (H x) by now left. apply IH. intros y Hy. apply H. now right.
Qed.

Lemma kind_requests_with_params net org client q k :
  filter has_params (kind_requests (reply net) org client q k)
  = [search_request client k org q].
Proof.
  unfold kind_requests. cbn [filter has_params params_of search_request].
  f_equal. apply filter_none. intros req Hin.
  destruct (accepted _ _) as [r|]; [|destruct Hin].
  apply in_flat_map in Hin as (el & _ & Hin).
  apply in_map_iff in Hin as (f & <- & _). reflexivity.
Qed.

Lemma accessor_only_logs_in net e a t :
  wraps_login net e -> getClient e = Some a ->
  Forall (fun req => exists u pw, req = login_request u pw)
         (snd (fst (RateLimit.call a t))).
Proof.
  intros Hw Ha. apply Forall_forall. intros req Hin.
  now destruct (accessor_requests net e a t req Hw Ha Hin).
Qed.

(** X15.  Once the accessor has handed out a client, a search sends exactly
    three requests with query parameters, one for each kind in the order
    fig_files, folders, teams, all through that client, each to
    /api/search/<kind> with desc false, the organization id of the engine,
    the query as given and sort "relevancy"; this whether or not any of
    them, or any thumbnail, fails. *)
Theorem search_three_queries net q e t a client :
  wraps_login net e ->
  getClient e = Some a ->
  outcome (handed a t) = Resolved client ->
  filter has_params (requests (search net q e t))
  = map (fun k =>
           Get client ("/api/search/" ++ urlFragment k)%string
               (Some {| desc := false; org_id := orgId e; query := q;
                        sort := "relevancy" |})
               None)
        [fig_files; folders; teams].
Proof.
  intros Hw Ha Hp. unfold handed in Hp.
  pose proof (accessor_only_logs_in net e a t Hw Ha) as Hrq.
  destruct (RateLimit.call a t) as [[p rq] a'] eqn:Hc. cbn [fst snd] in *.
  destruct (search_run net q e t a p rq a' client Ha
              (wraps_login_lasting net e a Hw Ha) Hc Hp) as (-> & _ & _).
  rewrite !filter_app, !kind_requests_with_params.
  rewrite (filter_none has_params rq); [reflexivity|].
  intros req Hin. rewrite Forall_forall in Hrq.
  now destruct (Hrq req Hin) as (u & pw & ->).
Qed.

Lemma search_three_queries_witness :
  let net := Demo.backend (Some Demo.session)
               (Demo.plain 200 (Demo.hits [{| FileHit.model := Demo.doc |}] [] []))
               (Demo.plain 200 (Demo.hits [] [Demo.proj] []))
               (Demo.plain 500 Demo.no_hits) in
  filter has_params (requests (search net "doc" (Demo.ready net) 0))
  = [search_request Demo.handle fig_files (Some "1234") "doc";
     search_request Demo.handle folders (Some "1234") "doc";
     search_request Demo.handle teams (Some "1234") "doc"].
Proof.
  intros net.
  apply (search_three_queries net "doc" (Demo.ready net) 0
           (RateLimit.rateLimit (login net "me@example.org" "secret") 24)
           Demo.handle).
  - apply wraps_login_init.
  - reflexivity.
  - reflexivity.
Defined.

(** X16.  When the promise the accessor hands out is rejected, the search
    sends no search request and probes no thumbnail: all it may have sent is
    the login. *)
Theorem search_login_failure net q e t a ex :
  wraps_login net e ->
  getClient e = Some a ->
  outcome (handed a t) = Rejected ex ->
  requests (search net q e t) = snd (fst (RateLimit.call a t))
  /\ Forall (fun req => exists u pw, req = login_request u pw)
            (requests (search net q e t)).
Proof.
  intros Hw Ha Hp. unfold handed in Hp.
  pose proof (accessor_only_logs_in net e a t Hw Ha) as Hrq.
  destruct (RateLimit.call a t) as [[p rq] a'] eqn:Hc. cbn [fst snd] in *.
  rewrite (search_rejected_login net q e t a p rq a' ex Ha
             (wraps_login_lasting net e a Hw Ha) Hc Hp).
  split; [reflexivity|exact Hrq].
Qed.

Lemma search_login_failure_witness :
  let net := Demo.backend (Some ["lang=en"])
               (Demo.plain 200 (Demo.hits [{| FileHit.model := Demo.doc |}] [] []))
               (Demo.plain 200 (Demo.hits [] [Demo.proj] []))
               (Demo.plain 200 (Demo.hits [] [] [Demo.team])) in
  requests (search net "doc" (Demo.ready net) 0)
  = [login_request "me@example.org" "secret"].
Proof.
  intros net.
  apply (proj1 (search_login_failure net "doc" (Demo.ready net) 0
                  (RateLimit.rateLimit (login net "me@example.org" "secret") 24)
                  (Error "Figma login failed")
                  (wraps_login_init net Demo.options loaded)
                  eq_refl eq_refl)).
Defined.




(** X18.  A search never touches the organization id, never turns an
    initialized engine into one that is not, nor the reverse, and leaves an
    accessor that still wraps the login factory: searches can follow one
    another. *)
Theorem search_keeps_engine net q e t :
  wraps_login net e ->
  orgId (state (search net q e t)) = orgId e
  /\ (getClient (state (search net q e t)) = None <-> getClient e = None)
  /\ wraps_login net (state (search net q e t)).
Proof.
  intros Hw. split; [|split; [|now apply wraps_login_search]].
  - destruct (getClient e) as [a|] eqn:Ha.
    2:{ now rewrite (search_uninit net q e t Ha). }
    pose proof (wraps_login_lasting net e a Hw Ha) as Hl.
    destruct (RateLimit.call a t) as [[p rq] a'] eqn:Hc.
    destruct (outcome p) as [client|ex] eqn:Hp.
    + now destruct (search_run net q e t a p rq a' client Ha Hl Hc Hp)
        as (_ & -> & _).
    + now rewrite (search_rejected_login net q e t a p rq a' ex Ha Hl Hc Hp).
  - destruct (getClient e) as [a|] eqn:Ha.
    2:{ rewrite (search_uninit net q e t Ha). cbn [state]. now rewrite Ha. }
    pose proof (wraps_login_lasting net e a Hw Ha) as Hl.
    destruct (RateLimit.call a t) as [[p rq] a'] eqn:Hc.
    destruct (outcome p) as [client|ex] eqn:Hp.
    + destruct (search_run net q e t a p rq a' client Ha Hl Hc Hp)
        as (_ & -> & _). split; discriminate.
    + rewrite (search_rejected_login net q e t a p rq a' ex Ha Hl Hc Hp).
      split; discriminate.
Qed.

Lemma search_keeps_engine_witness :
  orgId (state (search Demo.good "doc" (Demo.ready Demo.good) 0))
  = Some "1234"
  /\ (getClient (state (search Demo.good "doc" (Demo.ready Demo.good) 0)) = None
      <-> getClient (Demo.ready Demo.good) = None)
  /\ wraps_login Demo.good
                 (state (search Demo.good "doc" (Demo.ready Demo.good) 0)).
Proof.
  apply (search_keeps_engine Demo.good "doc" (Demo.ready Demo.good) 0).
  apply wraps_login_init.
Defined.

(** ** The errors of a search *)

Section ErrorFacts.
Context {S : Type}.
Variable K : Exception -> Prop.

Lemma rejects_only_ret {A} (a : A) : rejects_only K (@ret S A a).
Proof. intros s t ex. discriminate. Qed.

Lemma rejects_only_get_state : rejects_only K (@get_state S).
Proof. intros s t ex. discriminate. Qed.

Lemma rejects_only_bind {A B} (m : Task S A) (f : A -> Task S B) :
  rejects_only K m -> (forall a, rejects_only K (f a)) ->
  rejects_only K (bind m f).
Proof.
  intros Hm Hf s t ex. unfold bind.
  destruct (outcome (promise (m s t))) as [a|e0] eqn:Ho;
    cbn [promise outcome].
  - apply Hf.
  - intros [= <-]. now apply (Hm s t).
Qed.

Lemma start_all_promises {A} (ms : list (Task S A)) s t p :
  In p (fst (fst (start_all ms s t))) ->
  exists m s', In m ms /\ p = promise (m s' t).
Proof.
  revert s. induction ms as [|m ms IH]; intros s; cbn [start_all].
  - intros [].
  - destruct (start_all ms (state (m s t)) t) as [[ps rq] s'] eqn:Hs.
    cbn [fst]. intros [<-|Hin].
    + exists m, s. split; [now left|reflexivity].
    + specialize (IH (state (m s t))). rewrite Hs in IH.
      destruct (IH Hin) as (m' & s'' & Hm & ->).
      exists m', s''. split; [now right|reflexivity].
Qed.

Lemma first_rejection_in {A} (ps : list (Promise A)) t' ex :
  first_rejection ps = Some (t', ex) ->
  exists p, In p ps /\ outcome p = Rejected ex.
Proof.
  revert t' ex. induction ps as [|p ps IH]; intros t' ex;
    cbn [first_rejection]; [discriminate|].
  destruct (outcome p) as [v|e0] eqn:Hp.
  - intros H. destruct (IH _ _ H) as (p' & Hin & Ho).
    exists p'. split; [now right|assumption].
  - destruct (first_rejection ps) as [[t1 e1]|].
    + destruct (t1 <? settled_at p)%nat.
      * intros [= <- <-]. destruct (IH _ _ eq_refl) as (p' & Hin & Ho).
        exists p'. split; [now right|assumption].
      * intros [= <- <-]. exists p. split; [now left|assumption].
    + intros [= <- <-]. exists p. split; [now left|assumption].
Qed.

Lemma settle_all_rejection_in {A} (ps : list (Promise A)) t ex :
  outcome (settle_all t ps) = Rejected ex ->
  exists p, In p ps /\ outcome p = Rejected ex.
Proof.
  unfold settle_all.
  destruct (first_rejection ps) as [[t' e0]|] eqn:Hf; cbn [outcome];
    [|discriminate].
  intros [= <-]. now apply first_rejection_in with t'.
Qed.

Lemma rejects_only_all {A} (ms : list (Task S A)) :
  Forall (rejects_only K) ms -> rejects_only K (all ms).
Proof.
  intros H s t ex. unfold all.
  pose proof (start_all_promises ms s t) as Hp.
  destruct (start_all ms s t) as [[ps rq] s']. cbn [fst promise] in *.
  intros Ho. apply settle_all_rejection_in in Ho as (p & Hin & Ho).
  destruct (Hp p Hin) as (m & s'' & Hm & ->).
  rewrite Forall_forall in H. now apply (H m Hm s'' t).
Qed.

End ErrorFacts.

Section EngineErrors.
Variable net : Backend.

Lemma rejects_only_getThumbnail {S} client f :
  rejects_only engine_error (@getThumbnail net S client f).
Proof.
  intros s t ex. rewrite getThumbnail_run. cbn [promise outcome].
  destruct (resolve _ _ _); [discriminate|]. intros [= <-].
  unfold probe_error, engine_error.
  destruct (reply net _) as [r|]; [|eauto].
  destruct (validateStatus _); eauto.
Qed.

Lemma rejects_only_getResult k el client :
  rejects_only engine_error (getResult net k el client).
Proof.
  destruct k; cbn [getResult].
  - apply rejects_only_bind; [apply rejects_only_getThumbnail|].
    intros. apply rejects_only_ret.
  - apply rejects_only_bind.
    + apply rejects_only_all, Forall_forall.
      intros m (f & <- & _)%in_map_iff. apply rejects_only_getThumbnail.
    + intros. apply rejects_only_bind; [apply rejects_only_get_state|].
      intros. apply rejects_only_ret.
  - apply rejects_only_bind; [apply rejects_only_get_state|].
    intros. apply rejects_only_ret.
Qed.

Lemma rejects_only_query_kind q k client :
  rejects_only engine_error (query_kind net q k client).
Proof.
  apply rejects_only_bind; [apply rejects_only_get_state|]. intros e.
  apply rejects_only_bind.
  - intros s t ex. unfold send. cbn [promise outcome].
    destruct (reply net _) as [r|]; [destruct (validateStatus _)|];
      try discriminate; intros [= <-]; unfold engine_error; eauto.
  - intros r. apply rejects_only_all, Forall_forall.
    intros m (el & <- & _)%in_map_iff. apply rejects_only_getResult.
Qed.

Lemma login_outcome_error user password ex :
  login_outcome (reply net) user password = Rejected ex -> engine_error ex.
Proof.
  unfold login_outcome, engine_error.
  destruct (reply net _) as [r|]; [|intros [= <-]; eauto].
  destruct (validateStatus _); [|intros [= <-]; eauto].
  destruct (set_cookie _) as [cookies|]; [|intros [= <-]; eauto].
  destruct (Cookie.token_of cookies) as [[|c token]|];
    try discriminate; intros [= <-]; eauto.
Qed.

Lemma handed_error e a t ex :
  wraps_login net e -> getClient e = Some a -> login_failures_only a ->
  outcome (handed a t) = Rejected ex -> engine_error ex.
Proof.
  intros Hw Ha Hok. unfold handed.
  destruct (call_cases a t) as [(p & Hc & _ & ->)| ->]; cbn [fst].
  - now apply Hok.
  - destruct (Hw a Ha) as (u & pw & Hfn). unfold RateLimit.invoke. cbn [fst].
    rewrite Hfn, login_run. cbn [promise outcome].
    apply login_outcome_error.
Qed.

Lemma call_keeps_failures e a t :
  wraps_login net e -> getClient e = Some a -> login_failures_only a ->
  login_failures_only (snd (RateLimit.call a t)).
Proof.
  intros Hw Ha Hok.
  destruct (call_cases a t) as [(p & Hc & _ & ->)| ->]; cbn [snd];
    [exact Hok|].
  destruct (Hw a Ha) as (u & pw & Hfn). unfold RateLimit.invoke. cbn [snd].
  intros p ex. cbn [RateLimit.cached]. intros [= <-].
  rewrite Hfn, login_run. cbn [promise outcome]. apply login_outcome_error.
Qed.

End EngineErrors.

(** The accessor [init] installs has cached nothing yet. *)
Lemma fresh_accessor_clean fn hours :
  login_failures_only (RateLimit.rateLimit fn hours).
Proof. intros p ex. discriminate. Qed.

(** X19.  On an initialized engine whose accessor has cached no failure
    other than a login's, a search that is rejected is rejected with one of:
    "Figma login failed", "Thumbnail URL not found", a TypeError, or an
    axios error; never with "Engine not initialized".  The accessor it
    leaves has again cached no failure other than a login's, so this goes
    for every search that follows. *)
Theorem search_errors net q e t a :
  wraps_login net e ->
  getClient e = Some a ->
  login_failures_only a ->
  (forall ex,
      outcome (promise (search net q e t)) = Rejected ex ->
      engine_error ex /\ ex <> Error "Engine not initialized")
  /\ (forall a',
         getClient (state (search net q e t)) = Some a' ->
         login_failures_only a').
Proof.
  intros Hw Ha Hok.
  assert (Hnot : forall ex, engine_error ex ->
                            ex <> Error "Engine not initialized").
  { intros ex [->|[->|[->|[r ->]]]]; discriminate. }
  pose proof (wraps_login_lasting net e a Hw Ha) as Hl.
  pose proof (handed_error net e a t) as Hh.
  pose proof (call_keeps_failures net e a t Hw Ha Hok) as Hk.
  unfold handed in Hh.
  destruct (RateLimit.call a t) as [[p rq] a'] eqn:Hc. cbn [fst snd] in *.
  destruct (outcome p) as [client|ex0] eqn:Hp.
  - split.
    + intros ex Hex. enough (engine_error ex) by auto.
      unfold search in Hex.
      destruct (bind_ret_run (all (map (sub_query net q) MODEL_TYPES))
                  (@concat Result.t) e t) as (_ & _ & Ho).
      rewrite Ho in Hex. clear Ho.
      rewrite (all_sub_queries net q e t a p rq a' client Ha Hl Hc Hp) in Hex.
      cbn [promise] in Hex.
      destruct (outcome (settle_all t _)) as [v|e1] eqn:Hs; [discriminate|].
      injection Hex as ->.
      apply settle_all_rejection_in in Hs as (p0 & Hin & Ho).
      destruct Hin as [<-|[<-|[<-|[]]]];
        now apply (rejects_only_query_kind net q _ client) in Ho.
    + destruct (search_run net q e t a p rq a' client Ha Hl Hc Hp)
        as (_ & -> & _). now intros a0 [= <-].
  - rewrite (search_rejected_login net q e t a p rq a' ex0 Ha Hl Hc Hp).
    cbn [promise outcome state]. split.
    + intros ex [= <-]. specialize (Hh ex0 Hw Ha Hok eq_refl). auto.
    + now intros a0 [= <-].
Qed.

Lemma search_errors_witness :
  let net := Demo.backend (Some Demo.session)
               (Demo.plain 200 (Demo.hits [{| FileHit.model := Demo.broken |}] [] []))
               (Demo.plain 200 Demo.no_hits) (Demo.plain 200 Demo.no_hits) in
  engine_error (Error "Thumbnail URL not found")
  /\ Error "Thumbnail URL not found" <> Error "Engine not initialized".
Proof.
  intros net.
  apply (proj1 (search_errors net "old" (Demo.ready net) 0
                  (RateLimit.rateLimit (login net "me@example.org" "secret") 24)
                  (wraps_login_init net Demo.options loaded) eq_refl
                  (fresh_accessor_clean _ 24))).
  vm_compute. reflexivity.
Defined.

(** ** The teams sub-query *)

Lemma traverse_total {A B} (f : A -> option B) (g : A -> B) l :
  (forall x, f x = Some (g x)) -> traverse f l = Some (map g l).
Proof.
  intros H. induction l as [|x l IH]; simpl; [reflexivity|].
  now rewrite H, IH.
Qed.

(** X20.  The teams sub-query needs nothing but its search request: when
    axios accepts the response, the sub-query resolves, whatever the number
    of teams, to one result for each, in the order of the response, and the
    search request is the only request it sends.  The member counts are safe
    integers, written in decimal. *)
Theorem teams_need_no_thumbnail net q client e t r :
  reply net (search_request client teams (orgId e) q) = Some r ->
  validateStatus (status r) = true ->
  Forall (fun el : TeamHit.t => Js.safe_integer (TeamHit.member_count el))
         (results r teams) ->
  outcome (promise (query_kind net q teams client e t))
  = Resolved
      (map (fun el : TeamHit.t =>
              {| Result.snippet :=
                   Some ("Team with "
                         ++ (if (TeamHit.member_count el =? 1)%Z
                             then "1 member"
                             else Js.number_to_string (TeamHit.member_count el)
                                  ++ " members"))%string;
                 Result.title := Named.name (TeamHit.model el);
                 Result.url :=
                   ("https://www.figma.com/files/" ++ Js.template (orgId e)
                    ++ "/team/" ++ Named.id (TeamHit.model el))%string |})
           (results r teams))
  /\ requests (query_kind net q teams client e t)
     = [search_request client teams (orgId e) q].
Proof.
  intros Hr Hv _. split.
  - pose proof (query_kind_computes net q client teams e t) as H.
    cbv beta in H. unfold kind_results, accepted in H. rewrite Hr, Hv in H.
    rewrite (traverse_total _
               (fun el => render (orgId e) teams el [])) in H
      by reflexivity.
    exact H.
  - rewrite query_kind_requests. unfold kind_requests, accepted.
    rewrite Hr, Hv. f_equal.
    induction (results r teams) as [|el l IH]; [reflexivity|exact IH].
Qed.

Lemma teams_need_no_thumbnail_witness :
  outcome (promise (query_kind Demo.good "doc" teams Demo.handle
                               (Demo.ready Demo.good) 0))
  = Resolved [ {| Result.snippet := Some "Team with 1 member";
                  Result.title := "Design";
                  Result.url := "https://www.figma.com/files/1234/team/5" |} ]
  /\ requests (query_kind Demo.good "doc" teams Demo.handle
                          (Demo.ready Demo.good) 0)
     = [search_request Demo.handle teams (Some "1234") "doc"].
Proof.
  apply (teams_need_no_thumbnail Demo.good "doc" Demo.handle
           (Demo.ready Demo.good) 0
           (Demo.plain 200 (Demo.hits [] [] [Demo.team])));
    try reflexivity.
  repeat constructor.
Defined.

Lemma session_cookie_pattern_witness :
  exists ch rest,
    "figma.st=tok123; Path=/"%string = ("figma.st=" ++ String ch rest)%string
    /\ ch <> ";"%char.
Proof.
  apply (proj1 (session_cookie_pattern "figma.st=tok123; Path=/")).
  reflexivity.
Defined.
